(** * niconico-series-feed: the request pipeline

    A shallow embedding of the Cloud Function that fetches a series page of
    the video site, reads the JSON state embedded in it, fetches the last
    page when the series has more than 100 videos, and answers with an RSS
    feed of the 20 newest videos.

    Three handlers are embedded: the one of [src/index.ts] (module
    [Index]), the oldest one of [src/unnamed/part_001] (module [Part001]),
    which reads the entries from the JSON-LD script of the page and does
    not await [check], and the one of [src/unnamed/part_000] (module
    [Part000]), which stands between the two: the entries of [Part001],
    the spans and the awaited [check] of [Index].

    The handlers are asynchronous effectful TypeScript.  They are embedded
    in a state-and-exception monad [M]: the state carries the ordered trace
    of the effects performed (spans, fetches, log writes, feed construction
    and serialisation), the response object, and the promise rejections
    nobody handled; the exception is the JavaScript value thrown.

    What lies outside the repository is a field of [World]: the upstream
    site ([net]), the HTML parser ([load], cheerio), the feed serialiser
    ([rss2], which can throw), the logging backend ([logWrite], whose
    promise can reject) and the process environment.  The records of the
    data model follow the [type] declarations of the source: a field
    declared there is present. *)

From Stdlib Require Import ZArith List String Ascii Bool Lia DecimalString.
Import ListNotations.

#[local] Open Scope string_scope.
#[local] Open Scope Z_scope.

(** ** Data model (the [type] declarations of the source) *)

Record Thumbnail := { url : string }.

Record VideoType := {
  video_id : string;
  video_title : string;
  thumbnail : Thumbnail;
  shortDescription : string;
  registeredAt : string
}.

(** [meta: unknown] is never read and is left out. *)
Record VideoItemType := { video : VideoType }.

Record Detail := { detail_title : string }.

(** [totalCount] is a JSON number holding a count: an integer. *)
Record Data := {
  detail : Detail;
  totalCount : Z;
  items : list VideoItemType
}.

Record Body := { data : Data }.
Record NvapiEntry := { body : Body }.
Record InitialData := { nvapi : list NvapiEntry }.

(** ** Errors and results *)

Inductive Error :=
| ErrorMsg (msg : string)         (* new Error(msg) *)
| TypeError (msg : string)        (* property read on undefined, bad URL *)
| SyntaxError (msg : string)      (* JSON.parse on a text that is not JSON *)
| FetchError (target : string).   (* the promise of fetch rejected *)

(** What a call gives: a value, or the JavaScript value it throws. *)
Inductive Result (A : Type) :=
| Ok (a : A)
| Throw (e : Error).

Arguments Ok {A} a.
Arguments Throw {A} e.

(** The JSON-LD list of the older handler ([src/unnamed/part_001]). *)
Record ListElement := {
  le_url : string;
  le_name : string;
  le_thumbnailUrl : list string
}.

Record JsonLD := { itemListElement : list ListElement }.

(** A parsed document, seen through the three queries the handlers make:
    [link[rel=canonical]]'s [href], the [initial-data] attribute of
    [#js-initial-userpage-data], and the JSON text of the last [script].
    [None] is JavaScript's [undefined] for the first two.  The third is
    what [extractJsonLD] makes of the document: the parsed JSON, or the
    error it raises, a [TypeError] when there is no script or the last one
    is empty, a [SyntaxError] when its text is not JSON. *)
Record CheerioAPI := {
  canonical_href : option string;
  initial_data_attr : option InitialData;
  last_script_json : Result JsonLD
}.

(** ** Requests and responses *)

Record Query := { seriesId : option string }.
Record Headers := { traceparent : option string }.
Record Request := { query : option Query; headers : option Headers }.

(** [res.status(c).send(b)] on the host's response object. *)
Record Response := { statusCode : Z; sent : option string }.

Definition freshResponse : Response := {| statusCode := 200; sent := None |}.

(** ** Feed objects (package [feed]) *)

Inductive JsDate :=
| DateOf (s : string)   (* new Date(s); an unparsable s gives Invalid Date *)
| DateNow.              (* new Date() *)

Record FeedOptions := {
  fo_title : string;
  fo_description : string;
  fo_id : string;
  fo_link : string;
  fo_copyright : string
}.

Record Item := {
  item_title : string;
  item_id : string;
  item_link : string;
  item_description : string;
  item_content : string;
  item_image : option string;
  item_date : JsDate
}.

Record Feed := { options : FeedOptions; feed_items : list Item }.

Definition newFeed (o : FeedOptions) : Feed :=
  {| options := o; feed_items := [] |}.

Definition addItem (f : Feed) (i : Item) : Feed :=
  {| options := options f; feed_items := feed_items f ++ [i] |}.

(** ** Log records, events *)

Inductive LogData :=
| Text (s : string)
| Content (err : Error).          (* { content: err } *)

Record LogEntry := { severity : string; labels : list (string * string) }.

Inductive Event :=
| EvSpanStart (name : string) (ctx : option string)
| EvSpanEnd (name : string)
| EvFetch (target : string)
| EvConsole (d : LogData)
| EvLogWrite (metadata : LogEntry) (d : LogData)
| EvNewFeed (o : FeedOptions)
| EvRss2 (f : Feed).

(** ** The world outside the repository *)

Inductive FetchResult :=
| NetworkError
| HttpResponse (status : Z) (text : string).

Record World := {
  (** the answer of the site to the [n]-th fetch of a run *)
  net : nat -> string -> FetchResult;
  (** cheerio's [load] *)
  load : string -> CheerioAPI;
  (** [feed.rss2()]: the XML, or the error the serialiser throws (it
      throws on an item whose image is not a URL it can parse) *)
  rss2 : Feed -> Result string;
  (** [log.write(entry)]: [Some e] when the promise it returns rejects
      with [e] *)
  logWrite : LogEntry -> LogData -> option Error;
  (** [process.env.SERIES_ID] *)
  SERIES_ID : option string;
  (** [process.env.NODE_ENV !== "production"] *)
  isDevelopment : bool
}.

(** ** JavaScript primitives used by the handlers *)

(** [a ?? b] *)
Definition nullish {A} (a b : option A) : option A :=
  match a with
  | Some x => Some x
  | None => b
  end.

(** ToBoolean on a string or [undefined]. *)
Definition truthy (v : option string) : bool :=
  match v with
  | None => false
  | Some s => negb (s =? "")%string
  end.

(** A string or [undefined] inside a template literal. *)
Definition interp (v : option string) : string :=
  match v with
  | Some s => s
  | None => "undefined"
  end.

(** An integer inside a template literal. *)
Definition show (z : Z) : string := NilZero.string_of_int (Z.to_int z).

(** [a.slice(0, n)] *)
Definition slice0 {A} (n : nat) (l : list A) : list A := firstn n l.

(** cross-fetch on Node turns a leading [//] into [https://] and hands the
    address to node-fetch. *)
Definition crossFetchUrl (u : string) : string :=
  if prefix "//" u then "https:" ++ u else u.

Fixpoint containsColon (s : string) : bool :=
  match s with
  | EmptyString => false
  | String c s' => (c =? ":")%char || containsColon s'
  end.

(** An address without a colon has no scheme: node-fetch finds no protocol
    in it and rejects with a [TypeError] before any request is made.  What
    happens to the other addresses is left to [net]. *)
Definition hasScheme (u : string) : bool := containsColon (crossFetchUrl u).

(** ** The monad of the handlers *)

Record State := {
  trace : list Event;
  res : option Response;            (* [None]: the handler was given null *)
  fetchCount : nat;
  rootContext : option string;      (* the module-level [let rootContext] *)
  unhandled : list Error            (* rejections of promises nobody awaits *)
}.

Definition initState (r : option Response) : State :=
  {| trace := []; res := r; fetchCount := 0;
     rootContext := None; unhandled := [] |}.

Definition M (A : Type) : Type := State -> State * Result A.

Definition ret {A} (a : A) : M A := fun s => (s, Ok a).

Definition throw {A} (e : Error) : M A := fun s => (s, Throw e).

Definition bind {A B} (m : M A) (k : A -> M B) : M B :=
  fun s =>
    match m s with
    | (s', Ok a) => k a s'
    | (s', Throw e) => (s', Throw e)
    end.

(** [try { await m } catch (err) { h err }] *)
Definition tryAwait (m : M unit) (h : Error -> M unit) : M unit :=
  fun s =>
    match m s with
    | (s', Ok a) => (s', Ok a)
    | (s', Throw e) => h e s'
    end.

(** [try { m } catch ...] where [m] is a call of an async function that is
    not awaited: the call evaluates to a promise, the [try] block completes
    normally, and a rejection of that promise reaches no handler. *)
Definition tryNoAwait (m : M unit) (h : Error -> M unit) : M unit :=
  fun s =>
    match m s with
    | (s', Ok a) => (s', Ok a)
    | (s', Throw e) =>
        ({| trace := trace s'; res := res s'; fetchCount := fetchCount s';
            rootContext := rootContext s';
            unhandled := unhandled s' ++ [e] |}, Ok tt)
    end.

Declare Scope js_scope.
Delimit Scope js_scope with js.
Notation "x <- m ;; k" := (bind m (fun x => k))
  (at level 61, m at next level, right associativity) : js_scope.
Notation "m ;; k" := (bind m (fun _ => k))
  (at level 61, right associativity) : js_scope.
#[local] Open Scope js_scope.

Definition emit (e : Event) : M unit :=
  fun s =>
    ({| trace := trace s ++ [e]; res := res s; fetchCount := fetchCount s;
        rootContext := rootContext s; unhandled := unhandled s |}, Ok tt).

(** [res?.status(c)?.send(b)] *)
Definition statusSend (c : Z) (b : string) : M unit :=
  fun s =>
    ({| trace := trace s;
        res := match res s with
               | Some _ => Some {| statusCode := c; sent := Some b |}
               | None => None
               end;
        fetchCount := fetchCount s;
        rootContext := rootContext s; unhandled := unhandled s |}, Ok tt).

(** [res.status(c)], on a response object. *)
Definition setStatus (c : Z) : M unit :=
  fun s =>
    ({| trace := trace s;
        res := match res s with
               | Some r => Some {| statusCode := c; sent := sent r |}
               | None => None
               end;
        fetchCount := fetchCount s;
        rootContext := rootContext s; unhandled := unhandled s |}, Ok tt).

(** [res.send(b)], on a response object. *)
Definition sendBody (b : string) : M unit :=
  fun s =>
    ({| trace := trace s;
        res := match res s with
               | Some r => Some {| statusCode := statusCode r; sent := Some b |}
               | None => None
               end;
        fetchCount := fetchCount s;
        rootContext := rootContext s; unhandled := unhandled s |}, Ok tt).

(** [res?. ...]: the rest of the chain, the evaluation of its arguments
    included, is skipped when [res] is null. *)
Definition whenResponse (k : M unit) : M unit :=
  fun s =>
    match res s with
    | Some _ => k s
    | None => (s, Ok tt)
    end.

(** A promise that nobody awaits rejects with [e]. *)
Definition reject (e : Error) : M unit :=
  fun s =>
    ({| trace := trace s; res := res s; fetchCount := fetchCount s;
        rootContext := rootContext s;
        unhandled := unhandled s ++ [e] |}, Ok tt).

Definition setRootContext (c : option string) : M unit :=
  fun s =>
    ({| trace := trace s; res := res s; fetchCount := fetchCount s;
        rootContext := c; unhandled := unhandled s |}, Ok tt).

Definition fetchedUrls (t : list Event) : list string :=
  flat_map (fun e => match e with EvFetch u => [u] | _ => [] end) t.

Definition isFeedEvent (e : Event) : bool :=
  match e with
  | EvNewFeed _ | EvRss2 _ => true
  | _ => false
  end.

Section Handlers.

Variable w : World.

(** [fetch(u)]: the promise resolves with the response whatever its HTTP
    status, and rejects when the request cannot be built or sent.  [net]
    answers for the address as the handler wrote it. *)
Definition fetch (u : string) : M (Z * string) :=
  fun s =>
    let s' := {| trace := trace s ++ [EvFetch u]; res := res s;
                 fetchCount := S (fetchCount s);
                 rootContext := rootContext s; unhandled := unhandled s |} in
    if hasScheme u then
      match net w (fetchCount s) u with
      | HttpResponse st txt => (s', Ok (st, txt))
      | NetworkError => (s', Throw (FetchError u))
      end
    else (s', Throw (TypeError "Only absolute URLs are supported")).

(** [fetch(u).then((res) => res.text())] *)
Definition fetchText (u : string) : M string :=
  r <- fetch u ;; ret (snd r).

(** In production [log.write(entry)] returns a promise that [writeLog]
    neither awaits nor catches. *)
Definition writeLog (metadata : LogEntry) (d : LogData) : M unit :=
  if isDevelopment w then emit (EvConsole d)
  else
    emit (EvLogWrite metadata d) ;;
    match logWrite w metadata d with
    | Some e => reject e
    | None => ret tt
    end.

(** [feed.rss2()] *)
Definition callRss2 (feed : Feed) : M string :=
  fun s =>
    ({| trace := trace s ++ [EvRss2 feed]; res := res s;
        fetchCount := fetchCount s;
        rootContext := rootContext s; unhandled := unhandled s |},
     rss2 w feed).

Definition startSpan (spanName : string) : M string :=
  fun s => (emit (EvSpanStart spanName (rootContext s)) ;; ret spanName) s.

Definition spanEnd (span : string) : M unit := emit (EvSpanEnd span).

Definition extractCanonicalUrl (doc : CheerioAPI) : option string :=
  canonical_href doc.

Definition extractInitialAPIData (doc : CheerioAPI) : option InitialData :=
  initial_data_attr doc.

(** [initialData.nvapi[0].body.data] *)
Definition nvapi0BodyData (initialData : option InitialData) : M Data :=
  match initialData with
  | None =>
      throw (TypeError "Cannot read properties of undefined (reading 'nvapi')")
  | Some i =>
      match nvapi i with
      | [] =>
          throw (TypeError "Cannot read properties of undefined (reading 'body')")
      | e :: _ => ret (data (body e))
      end
  end.

(** [req?.query?.seriesId] *)
Definition querySeriesId (req : option Request) : option string :=
  match req with
  | Some r => match query r with
              | Some q => seriesId q
              | None => None
              end
  | None => None
  end.

(** [req?.headers?.traceparent] *)
Definition headerTraceparent (req : option Request) : option string :=
  match req with
  | Some r => match headers r with
              | Some h => traceparent h
              | None => None
              end
  | None => None
  end.

Definition seriesUrl (sid : option string) : string :=
  "https://www.nicovideo.jp/series/" ++ interp sid.

(** [Math.floor(seriesCount / 100)], plus one when [seriesCount % 100 !== 0];
    [%] is the truncating remainder. *)
Definition lastPageNo (seriesCount : Z) : Z :=
  let pageNo := seriesCount / 100 in
  if negb (Z.rem seriesCount 100 =? 0) then pageNo + 1 else pageNo.

Definition pageUrl (canonicalUrl : option string) (pageNo : Z) : string :=
  interp canonicalUrl ++ "?page=" ++ show pageNo.

Definition serverError : string := "something went wrong. please check logs".

End Handlers.

(** ** [src/index.ts] *)

Module Index.

Record Entry := {
  link : string;
  title : string;
  image : string;
  date : string;
  description : string
}.

Definition extractEntry (videoItem : VideoItemType) : Entry :=
  let video := video videoItem in
  {| link := "https://www.nicovideo.jp/watch/" ++ video_id video;
     title := video_title video;
     image := url (thumbnail video);
     date := registeredAt video;
     description := shortDescription video |}.

(** The object literal handed to [feed.addItem]; [entry.link ?? ""] is
    [entry.link], a string. *)
Definition feedItem (entry : Entry) : Item :=
  {| item_title := title entry;
     item_id := link entry;
     item_link := link entry;
     item_description := description entry;
     item_content := link entry;
     item_image := Some (image entry);
     item_date := DateOf (date entry) |}.

(** [data.items.reverse().slice(0, 20).map(extractEntry)].  [reverse]
    works in place, on a list that is not read again. *)
Definition entriesOf (d : Data) : list Entry :=
  map extractEntry (slice0 20 (rev (items d))).

Definition feedOptions (seriesId : option string) (feedTitle : string)
  : FeedOptions :=
  {| fo_title := feedTitle;
     fo_description := feedTitle;
     fo_id := "";
     fo_link := seriesUrl seriesId;
     fo_copyright := "" |}.

(** [new Feed({...})] followed by [entries.forEach(... feed.addItem ...)] *)
Definition buildFeed (seriesId : option string) (feedTitle : string)
    (entries : list Entry) : Feed :=
  fold_left (fun feed entry => addItem feed (feedItem entry)) entries
            (newFeed (feedOptions seriesId feedTitle)).

Section Pipeline.

Variable w : World.

Definition check (req : option Request) : M unit :=
  let seriesId := nullish (querySeriesId req) (SERIES_ID w) in
  if negb (truthy seriesId) then throw (ErrorMsg "No series id specified")
  else
    fetchSpan <- startSpan "fetch" ;;
    body <- fetchText w (seriesUrl seriesId) ;;
    spanEnd fetchSpan ;;
    parseSpan <- startSpan "parse" ;;
    let doc := load w body in
    let initialData := extractInitialAPIData doc in
    data <- nvapi0BodyData initialData ;;
    let canonicalUrl := extractCanonicalUrl doc in
    spanEnd parseSpan ;;
    let seriesCount := totalCount data in
    data <-
      (if 100 <? seriesCount then
         let pageNo := lastPageNo seriesCount in
         reFetchSpan <- startSpan "reFetch" ;;
         body <- fetchText w (pageUrl canonicalUrl pageNo) ;;
         spanEnd reFetchSpan ;;
         reParseSpan <- startSpan "reParse" ;;
         let doc := load w body in
         let initialData := extractInitialAPIData doc in
         data <- nvapi0BodyData initialData ;;
         spanEnd reParseSpan ;;
         ret data
       else ret data) ;;
    let feedTitle := detail_title (detail data) in
    writeLog w {| severity := "INFO"; labels := [("logType", "feedCount")] |}
      (Text ("Count " ++ show seriesCount ++ " for " ++ feedTitle)) ;;
    let entries := entriesOf data in
    if (List.length entries =? 0)%nat then
      writeLog w {| severity := "CRITICAL"; labels := [] |}
        (Text ("No entries found: " ++ interp canonicalUrl
               ++ " 「" ++ feedTitle ++ "」")) ;;
      statusSend 404 "No entries found"
    else
      createFeedSpan <- startSpan "createFeed" ;;
      emit (EvNewFeed (feedOptions seriesId feedTitle)) ;;
      let feed := buildFeed seriesId feedTitle entries in
      spanEnd createFeedSpan ;;
      writeLog w {| severity := "INFO"; labels := [] |}
        (Text ("Create feed successfully: " ++ interp canonicalUrl)) ;;
      (if isDevelopment w then
         xml <- callRss2 w feed ;; emit (EvConsole (Text xml))
       else ret tt) ;;
      whenResponse
        (setStatus 200 ;; xml <- callRss2 w feed ;; sendBody xml).

Definition scrape (req : option Request) : M unit :=
  setRootContext (headerTraceparent req) ;;
  tryAwait (check req)
    (fun err =>
       writeLog w {| severity := "ERROR"; labels := [] |} (Content err) ;;
       statusSend 500 serverError).

(** The handler run on a request and a response object, from a fresh
    process state. *)
Definition run (req : option Request) (r : option Response) : State :=
  fst (scrape req (initState r)).

(** *** The stages of [check]

    [check] is the sequence of three stages: the first page is fetched and
    parsed, the last page replaces it when the series is longer than one
    page, and the response is built from the data that remains.  They are
    the text of [check] cut at these two points ([check_stages] below). *)

Definition firstPage (req : option Request)
  : M (option string * option string * Data) :=
  let seriesId := nullish (querySeriesId req) (SERIES_ID w) in
  if negb (truthy seriesId) then throw (ErrorMsg "No series id specified")
  else
    fetchSpan <- startSpan "fetch" ;;
    body <- fetchText w (seriesUrl seriesId) ;;
    spanEnd fetchSpan ;;
    parseSpan <- startSpan "parse" ;;
    let doc := load w body in
    let initialData := extractInitialAPIData doc in
    data <- nvapi0BodyData initialData ;;
    let canonicalUrl := extractCanonicalUrl doc in
    spanEnd parseSpan ;;
    ret (seriesId, canonicalUrl, data).

Definition lastPage (canonicalUrl : option string) (data : Data) : M Data :=
  let seriesCount := totalCount data in
  if 100 <? seriesCount then
    let pageNo := lastPageNo seriesCount in
    reFetchSpan <- startSpan "reFetch" ;;
    body <- fetchText w (pageUrl canonicalUrl pageNo) ;;
    spanEnd reFetchSpan ;;
    reParseSpan <- startSpan "reParse" ;;
    let doc := load w body in
    let initialData := extractInitialAPIData doc in
    data <- nvapi0BodyData initialData ;;
    spanEnd reParseSpan ;;
    ret data
  else ret data.

Definition respond (seriesId canonicalUrl : option string) (seriesCount : Z)
    (data : Data) : M unit :=
  let feedTitle := detail_title (detail data) in
  writeLog w {| severity := "INFO"; labels := [("logType", "feedCount")] |}
    (Text ("Count " ++ show seriesCount ++ " for " ++ feedTitle)) ;;
  let entries := entriesOf data in
  if (List.length entries =? 0)%nat then
    writeLog w {| severity := "CRITICAL"; labels := [] |}
      (Text ("No entries found: " ++ interp canonicalUrl
             ++ " 「" ++ feedTitle ++ "」")) ;;
    statusSend 404 "No entries found"
  else
    createFeedSpan <- startSpan "createFeed" ;;
    emit (EvNewFeed (feedOptions seriesId feedTitle)) ;;
    let feed := buildFeed seriesId feedTitle entries in
    spanEnd createFeedSpan ;;
    writeLog w {| severity := "INFO"; labels := [] |}
      (Text ("Create feed successfully: " ++ interp canonicalUrl)) ;;
    (if isDevelopment w then
       xml <- callRss2 w feed ;; emit (EvConsole (Text xml))
     else ret tt) ;;
    whenResponse
      (setStatus 200 ;; xml <- callRss2 w feed ;; sendBody xml).

Definition staged (req : option Request) : M unit :=
  first <- firstPage req ;;
  let '(seriesId, canonicalUrl, data) := first in
  final <- lastPage canonicalUrl data ;;
  respond seriesId canonicalUrl (totalCount data) final.

(** The state in which [check] starts when [scrape] runs in a fresh
    process, and the handler of the [catch] clause. *)
Definition startState (req : option Request) (r : option Response) : State :=
  {| trace := []; res := r; fetchCount := 0;
     rootContext := headerTraceparent req; unhandled := [] |}.

Definition onError (err : Error) : M unit :=
  writeLog w {| severity := "ERROR"; labels := [] |} (Content err) ;;
  statusSend 500 serverError.

End Pipeline.

End Index.

(** ** [src/unnamed/part_001]: the handler before tracing was added

    It reads the entries from the JSON-LD script of the page, and its
    [scrape] calls [check] without [await]. *)

Module Part001.

Record Entry := {
  link : string;
  title : string;
  image : option string
}.

Definition extractEntry (element : ListElement) : Entry :=
  {| link := le_url element;
     title := le_name element;
     image := hd_error (le_thumbnailUrl element) |}.

Definition feedItem (entry : Entry) : Item :=
  {| item_title := title entry;
     item_id := link entry;
     item_link := link entry;
     item_description := link entry;
     item_content := link entry;
     item_image := image entry;
     item_date := DateNow |}.

Definition extractJsonLD (doc : CheerioAPI) : M JsonLD :=
  match last_script_json doc with
  | Ok j => ret j
  | Throw e => throw e
  end.

Definition buildFeed (seriesId : option string) (feedTitle : string)
    (entries : list Entry) : Feed :=
  fold_left (fun feed entry => addItem feed (feedItem entry)) entries
            (newFeed (Index.feedOptions seriesId feedTitle)).

Section Pipeline.

Variable w : World.

Definition check (req : option Request) : M unit :=
  let seriesId := nullish (querySeriesId req) (SERIES_ID w) in
  if negb (truthy seriesId) then throw (ErrorMsg "No series id specified")
  else
    body <- fetchText w (seriesUrl seriesId) ;;
    let doc := load w body in
    jsonLD <- extractJsonLD doc ;;
    let initialData := extractInitialAPIData doc in
    data <- nvapi0BodyData initialData ;;
    let canonicalUrl := extractCanonicalUrl doc in
    let seriesCount := totalCount data in
    refreshed <-
      (if 100 <? seriesCount then
         let pageNo := lastPageNo seriesCount in
         body <- fetchText w (pageUrl canonicalUrl pageNo) ;;
         let doc := load w body in
         let initialData := extractInitialAPIData doc in
         data <- nvapi0BodyData initialData ;;
         jsonLD <- extractJsonLD doc ;;
         ret (data, jsonLD)
       else ret (data, jsonLD)) ;;
    let data := fst refreshed in
    let jsonLD := snd refreshed in
    let feedTitle := detail_title (detail data) in
    writeLog w {| severity := "INFO"; labels := [("logType", "feedCount")] |}
      (Text ("Count " ++ show seriesCount ++ " for " ++ feedTitle)) ;;
    let entries :=
      map extractEntry (slice0 20 (rev (itemListElement jsonLD))) in
    if (List.length entries =? 0)%nat then
      writeLog w {| severity := "CRITICAL"; labels := [] |}
        (Text ("No entries found: " ++ interp canonicalUrl
               ++ " 「" ++ feedTitle ++ "」")) ;;
      statusSend 404 "No entries found"
    else
      emit (EvNewFeed (Index.feedOptions seriesId feedTitle)) ;;
      let feed := buildFeed seriesId feedTitle entries in
      writeLog w {| severity := "INFO"; labels := [] |}
        (Text ("Create feed successfully: " ++ interp canonicalUrl)) ;;
      (if isDevelopment w then
         xml <- callRss2 w feed ;; emit (EvConsole (Text xml))
       else ret tt) ;;
      whenResponse
        (setStatus 200 ;; xml <- callRss2 w feed ;; sendBody xml).

(** [try { check(req, res); } catch (err) { ... }]: no [await]. *)
Definition scrape (req : option Request) : M unit :=
  tryNoAwait (check req)
    (fun err =>
       writeLog w {| severity := "ERROR"; labels := [] |} (Content err) ;;
       statusSend 500 serverError).

Definition run (req : option Request) (r : option Response) : State :=
  fst (scrape req (initState r)).

End Pipeline.

End Part001.

(** ** A canned upstream, for running the handlers on concrete requests *)

Module Fixture.

Definition mkVideo (n : string) : VideoItemType :=
  {| video := {| video_id := "sm" ++ n;
                 video_title := "title " ++ n;
                 thumbnail := {| url := "https://img.example/" ++ n |};
                 shortDescription := "about " ++ n;
                 registeredAt := "2023-01-0" ++ n ++ "T00:00:00+09:00" |} |}.

Definition v1 := mkVideo "1".
Definition v2 := mkVideo "2".
Definition v3 := mkVideo "3".

Definition mkData (t : string) (n : Z) (l : list VideoItemType) : Data :=
  {| detail := {| detail_title := t |}; totalCount := n; items := l |}.

(** The error of [extractJsonLD] on a page without script. *)
Definition noScript : Error :=
  TypeError "Cannot read properties of undefined (reading 'children')".

Definition mkDoc (c : option string) (d : Data) : CheerioAPI :=
  {| canonical_href := c;
     initial_data_attr := Some {| nvapi := [ {| body := {| data := d |} |} ] |};
     last_script_json := Throw noScript |}.

Definition emptyDoc : CheerioAPI :=
  {| canonical_href := None; initial_data_attr := None;
     last_script_json := Throw noScript |}.

Definition canonical : string := "https://www.nicovideo.jp/series/42".

(** The parser on the page texts the canned site serves. *)
Definition loadPage (b : string) : CheerioAPI :=
  if (b =? "three")%string then
    mkDoc (Some canonical) (mkData "S" 3 [v1; v2; v3])
  else if (b =? "short")%string then
    mkDoc (Some canonical) (mkData "S" 5 [v1])
  else if (b =? "empty")%string then
    mkDoc (Some canonical) (mkData "S" 0 [])
  else if (b =? "big")%string then
    mkDoc (Some canonical) (mkData "S" 250 [v1])
  else if (b =? "big'")%string then
    mkDoc (Some canonical) (mkData "T" 250 [v3; v1])
  else if (b =? "bigNoLink")%string then
    mkDoc None (mkData "S" 250 [v1])
  else if (b =? "noLink")%string then
    mkDoc None (mkData "S" 2 [v1; v2])
  else if (b =? "last")%string then
    mkDoc (Some canonical) (mkData "S" 250 [v2; v3])
  else emptyDoc.

(** The serialiser only has to tell feeds apart here: it prints the links
    of the items. *)
Definition rssLinks (f : Feed) : string :=
  String.concat "," (map item_link (feed_items f)).

(** A site that answers the first fetch with [first] and the second with
    [second]. *)
Definition site (first second : FetchResult) (n : nat) (u : string)
  : FetchResult :=
  match n with
  | O => first
  | _ => second
  end.

(** The canned serialiser and logging backend never fail. *)
Definition world (first second : FetchResult) : World :=
  {| net := site first second; load := loadPage;
     rss2 := fun f => Ok (rssLinks f);
     logWrite := fun _ _ => None;
     SERIES_ID := None; isDevelopment := false |}.

Definition request (sid : string) : option Request :=
  Some {| query := Some {| seriesId := Some sid |}; headers := None |}.

Definition noSeriesRequest : option Request :=
  Some {| query := Some {| seriesId := None |}; headers := None |}.

End Fixture.

(** ** Vocabulary of the statements *)

(** The data [check] reads off a parsed page, when the read does not throw:
    [initialData.nvapi[0].body.data]. *)
Definition dataOf (doc : CheerioAPI) : option Data :=
  match extractInitialAPIData doc with
  | Some i =>
      match nvapi i with
      | e :: _ => Some (data (body e))
      | [] => None
      end
  | None => None
  end.

(** The request names a series: [seriesId] is what the nullish coalescing
    yields, and it is truthy. *)
Definition Resolves (w : World) (req : option Request) (sid : option string)
  : Prop :=
  nullish (querySeriesId req) (SERIES_ID w) = sid /\ truthy sid = true.

(** The [n]-th fetch of the run, aimed at [u], is answered (with whatever
    HTTP status) by a page whose canonical link is [canon] and whose
    embedded state is [d]. *)
Definition Serves (w : World) (n : nat) (u : string) (canon : option string)
    (d : Data) : Prop :=
  hasScheme u = true /\
  exists st b,
    net w n u = HttpResponse st b /\
    extractCanonicalUrl (load w b) = canon /\
    dataOf (load w b) = Some d.

(** [dfin] is the data the entries are built from: the first page's [d1]
    when the series fits on one page, else the data of the page fetched
    second. *)
Definition FinalData (w : World) (canon : option string) (d1 dfin : Data)
  : Prop :=
  if 100 <? totalCount d1 then
    exists c, Serves w 1 (pageUrl canon (lastPageNo (totalCount d1))) c dfin
  else dfin = d1.

(** The run gets as far as building entries, from [dfin]. *)
Definition Reaches (w : World) (req : option Request) (sid canon : option string)
    (d1 dfin : Data) : Prop :=
  Resolves w req sid /\
  Serves w 0 (seriesUrl sid) canon d1 /\
  FinalData w canon d1 dfin.

(** Two worlds that differ at most in the site's answer to the first
    fetch. *)
Definition SameBeyondFirstFetch (w1 w2 : World) : Prop :=
  (forall n u, n <> O -> net w1 n u = net w2 n u) /\
  (forall b, load w1 b = load w2 b) /\
  (forall f, rss2 w1 f = rss2 w2 f) /\
  (forall m d, logWrite w1 m d = logWrite w2 m d) /\
  SERIES_ID w1 = SERIES_ID w2 /\
  isDevelopment w1 = isDevelopment w2.

(** Two worlds whose sites give the same text, under possibly different
    HTTP statuses, and fail at the same fetches. *)
Definition sameText (a b : FetchResult) : Prop :=
  match a, b with
  | NetworkError, NetworkError => True
  | HttpResponse _ t, HttpResponse _ t' => t = t'
  | _, _ => False
  end.

Definition SameUpToStatus (w1 w2 : World) : Prop :=
  (forall n u, sameText (net w1 n u) (net w2 n u)) /\
  (forall b, load w1 b = load w2 b) /\
  (forall f, rss2 w1 f = rss2 w2 f) /\
  (forall m d, logWrite w1 m d = logWrite w2 m d) /\
  SERIES_ID w1 = SERIES_ID w2 /\
  isDevelopment w1 = isDevelopment w2.

(** [ceil(n / d)] for a positive [d], as minus the floor of the opposite. *)
Definition ceilDiv (n d : Z) : Z := - ((- n) / d).

(** What [writeLog] appends to the trace, and the rejection it leaves
    unhandled. *)
Definition logEvent (w : World) (metadata : LogEntry) (d : LogData) : Event :=
  if isDevelopment w then EvConsole d else EvLogWrite metadata d.

Definition logRejection (w : World) (metadata : LogEntry) (d : LogData)
  : list Error :=
  if isDevelopment w then []
  else match logWrite w metadata d with
       | Some e => [e]
       | None => []
       end.

(** *** The states a run goes through *)

(** The state once the first page is fetched and parsed. *)
Definition afterFirst (req : option Request) (r : option Response)
    (sid : option string) : State :=
  {| trace := [EvSpanStart "fetch" (headerTraceparent req);
               EvFetch (seriesUrl sid);
               EvSpanEnd "fetch";
               EvSpanStart "parse" (headerTraceparent req);
               EvSpanEnd "parse"];
     res := r; fetchCount := 1;
     rootContext := headerTraceparent req; unhandled := [] |}.

(** The state [s] once the last page is fetched from [u] and parsed. *)
Definition afterLast (s : State) (u : string) : State :=
  {| trace := trace s ++ [EvSpanStart "reFetch" (rootContext s);
                          EvFetch u;
                          EvSpanEnd "reFetch";
                          EvSpanStart "reParse" (rootContext s);
                          EvSpanEnd "reParse"];
     res := res s; fetchCount := S (fetchCount s);
     rootContext := rootContext s; unhandled := unhandled s |}.

(** The state in which the third stage starts. *)
Definition beforeRespond (req : option Request) (r : option Response)
    (sid canon : option string) (d1 : Data) : State :=
  if 100 <? totalCount d1 then
    afterLast (afterFirst req r sid) (pageUrl canon (lastPageNo (totalCount d1)))
  else afterFirst req r sid.

(** The state [s] after the events [evs], the rejections [rej] and, on a
    response object, the answer [a]. *)
Definition answered (s : State) (evs : list Event) (rej : list Error)
    (a : Response) : State :=
  {| trace := trace s ++ evs;
     res := match res s with Some _ => Some a | None => None end;
     fetchCount := fetchCount s;
     rootContext := rootContext s;
     unhandled := unhandled s ++ rej |}.

Definition present (r : option Response) : bool :=
  match r with
  | Some _ => true
  | None => false
  end.

(** The feed [check] builds from the data [d]. *)
Definition feedOf (sid : option string) (d : Data) : Feed :=
  Index.buildFeed sid (detail_title (detail d)) (Index.entriesOf d).

Definition countRecord (cnt : Z) (d : Data) : LogEntry * LogData :=
  ({| severity := "INFO"; labels := [("logType", "feedCount")] |},
   Text ("Count " ++ show cnt ++ " for " ++ detail_title (detail d))).

Definition noEntriesRecord (canon : option string) (d : Data)
  : LogEntry * LogData :=
  ({| severity := "CRITICAL"; labels := [] |},
   Text ("No entries found: " ++ interp canon
         ++ " 「" ++ detail_title (detail d) ++ "」")).

Definition successRecord (canon : option string) : LogEntry * LogData :=
  ({| severity := "INFO"; labels := [] |},
   Text ("Create feed successfully: " ++ interp canon)).

Definition errorRecord (e : Error) : LogEntry * LogData :=
  ({| severity := "ERROR"; labels := [] |}, Content e).

(** The calls of [feed.rss2()] at the end of [check], with a response
    object or without ([has]), and the error they throw, if any. *)
Definition sendEvents (w : World) (has : bool) (feed : Feed) : list Event :=
  match rss2 w feed with
  | Ok xml =>
      (if isDevelopment w then [EvRss2 feed; EvConsole (Text xml)] else [])
      ++ (if has then [EvRss2 feed] else [])
  | Throw _ => if isDevelopment w || has then [EvRss2 feed] else []
  end.

Definition sendError (w : World) (has : bool) (feed : Feed) : option Error :=
  match rss2 w feed with
  | Ok _ => None
  | Throw e => if isDevelopment w || has then Some e else None
  end.

(** What the third stage, from the record of the count on, appends to the
    trace, the error it throws, the rejections it leaves unhandled, and
    the response object it leaves. *)
Definition respondEvents (w : World) (sid canon : option string) (cnt : Z)
    (d : Data) (ctx : option string) (has : bool) : list Event :=
  logEvent w (fst (countRecord cnt d)) (snd (countRecord cnt d))
  :: (if (List.length (Index.entriesOf d) =? 0)%nat then
        [logEvent w (fst (noEntriesRecord canon d))
           (snd (noEntriesRecord canon d))]
      else
        [EvSpanStart "createFeed" ctx;
         EvNewFeed (Index.feedOptions sid (detail_title (detail d)));
         EvSpanEnd "createFeed";
         logEvent w (fst (successRecord canon)) (snd (successRecord canon))]
        ++ sendEvents w has (feedOf sid d))%list.

Definition respondError (w : World) (sid : option string) (d : Data)
    (has : bool) : option Error :=
  if (List.length (Index.entriesOf d) =? 0)%nat then None
  else sendError w has (feedOf sid d).

Definition respondRejections (w : World) (canon : option string) (cnt : Z)
    (d : Data) : list Error :=
  logRejection w (fst (countRecord cnt d)) (snd (countRecord cnt d))
  ++ (if (List.length (Index.entriesOf d) =? 0)%nat then
        logRejection w (fst (noEntriesRecord canon d))
          (snd (noEntriesRecord canon d))
      else
        logRejection w (fst (successRecord canon)) (snd (successRecord canon))).

Definition respondResponse (w : World) (sid : option string) (d : Data)
    (r : option Response) : option Response :=
  match r with
  | None => None
  | Some r0 =>
      Some (if (List.length (Index.entriesOf d) =? 0)%nat then
              {| statusCode := 404; sent := Some "No entries found" |}
            else
              match rss2 w (feedOf sid d) with
              | Ok xml => {| statusCode := 200; sent := Some xml |}
              | Throw _ =>
                  if isDevelopment w then r0
                  else {| statusCode := 200; sent := sent r0 |}
              end)
  end.

Definition serverErrorAnswer : Response :=
  {| statusCode := 500; sent := Some serverError |}.

Definition errorEvent (w : World) (e : Error) : Event :=
  logEvent w (fst (errorRecord e)) (snd (errorRecord e)).

(** The same once [scrape] has caught what the third stage throws: the
    events, the rejections, and the answer given on a response object. *)
Definition tailEvents (w : World) (sid canon : option string) (cnt : Z)
    (d : Data) (ctx : option string) (has : bool) : list Event :=
  respondEvents w sid canon cnt d ctx has
  ++ match respondError w sid d has with
     | Some e => [errorEvent w e]
     | None => []
     end.

Definition tailRejections (w : World) (sid canon : option string) (cnt : Z)
    (d : Data) (has : bool) : list Error :=
  respondRejections w canon cnt d
  ++ match respondError w sid d has with
     | Some e => logRejection w (fst (errorRecord e)) (snd (errorRecord e))
     | None => []
     end.

Definition respondAnswer (w : World) (sid : option string) (d : Data)
  : Response :=
  if (List.length (Index.entriesOf d) =? 0)%nat then
    {| statusCode := 404; sent := Some "No entries found" |}
  else
    match rss2 w (feedOf sid d) with
    | Ok xml => {| statusCode := 200; sent := Some xml |}
    | Throw _ => serverErrorAnswer
    end.

(** ** The ways a request of [src/index.ts] ends *)

Definition requestedSeries (w : World) (req : option Request) : option string :=
  nullish (querySeriesId req) (SERIES_ID w).

Definition firstUrl (w : World) (req : option Request) : string :=
  seriesUrl (requestedSeries w req).

(** The address of the last page, from the first page's text [b] and data
    [d]. *)
Definition lastUrl (w : World) (b : string) (d : Data) : string :=
  pageUrl (extractCanonicalUrl (load w b)) (lastPageNo (totalCount d)).

Definition firstEvents (ctx : option string) (u : string) : list Event :=
  [EvSpanStart "fetch" ctx; EvFetch u; EvSpanEnd "fetch";
   EvSpanStart "parse" ctx; EvSpanEnd "parse"].

Definition lastEvents (ctx : option string) (u : string) : list Event :=
  [EvSpanStart "reFetch" ctx; EvFetch u; EvSpanEnd "reFetch";
   EvSpanStart "reParse" ctx; EvSpanEnd "reParse"].

(** [Ending w req has evs rej a]: in world [w] the request [req], with a
    response object or without ([has]), performs the effects [evs], leaves
    the rejections [rej] unhandled and, on a response object, answers [a].
    One constructor for each place where [check] can stop: the guard on
    the series identifier, the two fetches, the two reads of the embedded
    state, and the third stage after one page or two. *)
Inductive Ending (w : World) (req : option Request) (has : bool)
  : list Event -> list Error -> Response -> Prop :=
| EndNoSeries e :
    truthy (requestedSeries w req) = false ->
    e = ErrorMsg "No series id specified" ->
    Ending w req has
      [errorEvent w e]
      (logRejection w (fst (errorRecord e)) (snd (errorRecord e)))
      serverErrorAnswer
| EndFirstFetch e :
    truthy (requestedSeries w req) = true ->
    net w 0 (firstUrl w req) = NetworkError ->
    e = FetchError (firstUrl w req) ->
    Ending w req has
      [EvSpanStart "fetch" (headerTraceparent req);
       EvFetch (firstUrl w req);
       errorEvent w e]
      (logRejection w (fst (errorRecord e)) (snd (errorRecord e)))
      serverErrorAnswer
| EndFirstParse st b e msg :
    truthy (requestedSeries w req) = true ->
    net w 0 (firstUrl w req) = HttpResponse st b ->
    dataOf (load w b) = None ->
    e = TypeError msg ->
    Ending w req has
      [EvSpanStart "fetch" (headerTraceparent req);
       EvFetch (firstUrl w req);
       EvSpanEnd "fetch";
       EvSpanStart "parse" (headerTraceparent req);
       errorEvent w e]
      (logRejection w (fst (errorRecord e)) (snd (errorRecord e)))
      serverErrorAnswer
| EndOnePage st b d :
    truthy (requestedSeries w req) = true ->
    net w 0 (firstUrl w req) = HttpResponse st b ->
    dataOf (load w b) = Some d ->
    totalCount d <= 100 ->
    Ending w req has
      (firstEvents (headerTraceparent req) (firstUrl w req)
       ++ tailEvents w (requestedSeries w req)
            (extractCanonicalUrl (load w b)) (totalCount d) d
            (headerTraceparent req) has)
      (tailRejections w (requestedSeries w req)
         (extractCanonicalUrl (load w b)) (totalCount d) d has)
      (respondAnswer w (requestedSeries w req) d)
| EndLastFetch st b d e :
    truthy (requestedSeries w req) = true ->
    net w 0 (firstUrl w req) = HttpResponse st b ->
    dataOf (load w b) = Some d ->
    100 < totalCount d ->
    (hasScheme (lastUrl w b d) = false /\
     e = TypeError "Only absolute URLs are supported") \/
    (hasScheme (lastUrl w b d) = true /\
     net w 1 (lastUrl w b d) = NetworkError /\
     e = FetchError (lastUrl w b d)) ->
    Ending w req has
      (firstEvents (headerTraceparent req) (firstUrl w req)
       ++ [EvSpanStart "reFetch" (headerTraceparent req);
           EvFetch (lastUrl w b d);
           errorEvent w e])
      (logRejection w (fst (errorRecord e)) (snd (errorRecord e)))
      serverErrorAnswer
| EndLastParse st b d st2 b2 e msg :
    truthy (requestedSeries w req) = true ->
    net w 0 (firstUrl w req) = HttpResponse st b ->
    dataOf (load w b) = Some d ->
    100 < totalCount d ->
    hasScheme (lastUrl w b d) = true ->
    net w 1 (lastUrl w b d) = HttpResponse st2 b2 ->
    dataOf (load w b2) = None ->
    e = TypeError msg ->
    Ending w req has
      (firstEvents (headerTraceparent req) (firstUrl w req)
       ++ [EvSpanStart "reFetch" (headerTraceparent req);
           EvFetch (lastUrl w b d);
           EvSpanEnd "reFetch";
           EvSpanStart "reParse" (headerTraceparent req);
           errorEvent w e])
      (logRejection w (fst (errorRecord e)) (snd (errorRecord e)))
      serverErrorAnswer
| EndLastPage st b d st2 b2 d2 :
    truthy (requestedSeries w req) = true ->
    net w 0 (firstUrl w req) = HttpResponse st b ->
    dataOf (load w b) = Some d ->
    100 < totalCount d ->
    hasScheme (lastUrl w b d) = true ->
    net w 1 (lastUrl w b d) = HttpResponse st2 b2 ->
    dataOf (load w b2) = Some d2 ->
    Ending w req has
      (firstEvents (headerTraceparent req) (firstUrl w req)
       ++ lastEvents (headerTraceparent req) (lastUrl w b d)
       ++ tailEvents w (requestedSeries w req)
            (extractCanonicalUrl (load w b)) (totalCount d) d2
            (headerTraceparent req) has)
      (tailRejections w (requestedSeries w req)
         (extractCanonicalUrl (load w b)) (totalCount d) d2 has)
      (respondAnswer w (requestedSeries w req) d2).

(** The final state of a run that performs [evs], leaves [rej] unhandled
    and answers [a]. *)
Definition ended (req : option Request) (r : option Response)
    (evs : list Event) (rej : list Error) (a : Response) : State :=
  {| trace := evs;
     res := match r with Some _ => Some a | None => None end;
     fetchCount := List.length (fetchedUrls evs);
     rootContext := headerTraceparent req;
     unhandled := rej |}.

(** The world [w] with a logging backend that accepts every record. *)
Definition quiet (w : World) : World :=
  {| net := net w; load := load w; rss2 := rss2 w;
     logWrite := fun _ _ => None; SERIES_ID := SERIES_ID w;
     isDevelopment := isDevelopment w |}.

(** ** Observations on a trace *)

(** The spans started and not ended, the latest first. *)
Fixpoint openSpansFrom (open : list string) (t : list Event) : list string :=
  match t with
  | [] => open
  | EvSpanStart n _ :: t' => openSpansFrom (n :: open) t'
  | EvSpanEnd n :: t' => openSpansFrom (remove string_dec n open) t'
  | _ :: t' => openSpansFrom open t'
  end.

Definition openSpans (t : list Event) : list string := openSpansFrom [] t.

(** The contexts under which the spans were started. *)
Definition spanContexts (t : list Event) : list (option string) :=
  flat_map (fun e => match e with EvSpanStart _ c => [c] | _ => [] end) t.

(** The feeds serialised, one per call of [rss2]. *)
Definition serialised (t : list Event) : list Feed :=
  flat_map (fun e => match e with EvRss2 f => [f] | _ => [] end) t.

(** The feeds constructed, by their options. *)
Definition constructed (t : list Event) : list FeedOptions :=
  flat_map (fun e => match e with EvNewFeed o => [o] | _ => [] end) t.

(** What went to the console, and what went to Cloud Logging. *)
Definition consoleOutput (t : list Event) : list LogData :=
  flat_map (fun e => match e with EvConsole d => [d] | _ => [] end) t.

Definition logWrites (t : list Event) : list (LogEntry * LogData) :=
  flat_map (fun e => match e with EvLogWrite m d => [(m, d)] | _ => [] end) t.

(** The records handed to [writeLog], whichever the sink; the echo of the
    feed on the console is not one of them. *)
Definition isErrorRecord (e : Event) : bool :=
  match e with
  | EvConsole (Content _) => true
  | EvLogWrite m _ => (severity m =? "ERROR")%string
  | _ => false
  end.

(** ** [src/unnamed/part_000]: tracing added, entries still from JSON-LD

    The handler reads five fields of each JSON-LD element, two more than
    [Part001]; the JSON of the last script of a page is therefore a
    parameter of its own here, [jsonLDOf], a function of the page text as
    [load] is: the parsed JSON, or the error [extractJsonLD] raises. *)

Module Part000.

Record ListElement := {
  el_url : string;
  el_name : string;
  el_thumbnailUrl : list string;
  el_uploadDate : string;
  el_description : string
}.

Record JsonLD := { itemListElement : list ListElement }.

Record Entry := {
  link : string;
  title : string;
  image : option string;
  date : string;
  description : string
}.

Definition extractEntry (element : ListElement) : Entry :=
  {| link := el_url element;
     title := el_name element;
     image := hd_error (el_thumbnailUrl element);
     date := el_uploadDate element;
     description := el_description element |}.

Definition feedItem (entry : Entry) : Item :=
  {| item_title := title entry;
     item_id := link entry;
     item_link := link entry;
     item_description := description entry;
     item_content := link entry;
     item_image := image entry;
     item_date := DateOf (date entry) |}.

Definition buildFeed (seriesId : option string) (feedTitle : string)
    (entries : list Entry) : Feed :=
  fold_left (fun feed entry => addItem feed (feedItem entry)) entries
            (newFeed (Index.feedOptions seriesId feedTitle)).

(** [jsonLD.itemListElement.reverse().slice(0, 20).map(extractEntry)] *)
Definition entriesOf (jsonLD : JsonLD) : list Entry :=
  map extractEntry (slice0 20 (rev (itemListElement jsonLD))).

Section Pipeline.

Variable w : World.
Variable jsonLDOf : string -> Result JsonLD.

Definition extractJsonLD (body : string) : M JsonLD :=
  match jsonLDOf body with
  | Ok j => ret j
  | Throw e => throw e
  end.

Definition check (req : option Request) : M unit :=
  let seriesId := nullish (querySeriesId req) (SERIES_ID w) in
  if negb (truthy seriesId) then throw (ErrorMsg "No series id specified")
  else
    fetchSpan <- startSpan "fetch" ;;
    body <- fetchText w (seriesUrl seriesId) ;;
    spanEnd fetchSpan ;;
    parseSpan <- startSpan "parse" ;;
    let doc := load w body in
    jsonLD <- extractJsonLD body ;;
    let initialData := extractInitialAPIData doc in
    data <- nvapi0BodyData initialData ;;
    let canonicalUrl := extractCanonicalUrl doc in
    spanEnd parseSpan ;;
    let seriesCount := totalCount data in
    refreshed <-
      (if 100 <? seriesCount then
         let pageNo := lastPageNo seriesCount in
         reFetchSpan <- startSpan "reFetch" ;;
         body <- fetchText w (pageUrl canonicalUrl pageNo) ;;
         spanEnd reFetchSpan ;;
         reParseSpan <- startSpan "reParse" ;;
         let doc := load w body in
         let initialData := extractInitialAPIData doc in
         data <- nvapi0BodyData initialData ;;
         jsonLD <- extractJsonLD body ;;
         spanEnd reParseSpan ;;
         ret (data, jsonLD)
       else ret (data, jsonLD)) ;;
    let data := fst refreshed in
    let jsonLD := snd refreshed in
    let feedTitle := detail_title (detail data) in
    writeLog w {| severity := "INFO"; labels := [("logType", "feedCount")] |}
      (Text ("Count " ++ show seriesCount ++ " for " ++ feedTitle)) ;;
    let entries := entriesOf jsonLD in
    if (List.length entries =? 0)%nat then
      writeLog w {| severity := "CRITICAL"; labels := [] |}
        (Text ("No entries found: " ++ interp canonicalUrl
               ++ " 「" ++ feedTitle ++ "」")) ;;
      statusSend 404 "No entries found"
    else
      createFeedSpan <- startSpan "createFeed" ;;
      emit (EvNewFeed (Index.feedOptions seriesId feedTitle)) ;;
      let feed := buildFeed seriesId feedTitle entries in
      spanEnd createFeedSpan ;;
      writeLog w {| severity := "INFO"; labels := [] |}
        (Text ("Create feed successfully: " ++ interp canonicalUrl)) ;;
      (if isDevelopment w then
         xml <- callRss2 w feed ;; emit (EvConsole (Text xml))
       else ret tt) ;;
      whenResponse
        (setStatus 200 ;; xml <- callRss2 w feed ;; sendBody xml).

Definition scrape (req : option Request) : M unit :=
  setRootContext (headerTraceparent req) ;;
  tryAwait (check req)
    (fun err =>
       writeLog w {| severity := "ERROR"; labels := [] |} (Content err) ;;
       statusSend 500 serverError).

Definition run (req : option Request) (r : option Response) : State :=
  fst (scrape req (initState r)).

End Pipeline.

End Part000.

(** ** Vocabulary for the JSON-LD handlers *)

(** The [n]-th fetch, aimed at [u], is answered by a page that carries the
    embedded state [d] and the JSON-LD list [j] (as [Part001] reads it). *)
Definition ServesLD (w : World) (n : nat) (u : string) (canon : option string)
    (d : Data) (j : JsonLD) : Prop :=
  hasScheme u = true /\
  exists st b,
    net w n u = HttpResponse st b /\
    extractCanonicalUrl (load w b) = canon /\
    dataOf (load w b) = Some d /\
    last_script_json (load w b) = Ok j.

(** The data and the JSON-LD list a JSON-LD handler builds its answer
    from. *)
Definition FinalLD (w : World) (canon : option string) (d1 : Data)
    (j1 : JsonLD) (dfin : Data) (jfin : JsonLD) : Prop :=
  if 100 <? totalCount d1 then
    exists c,
      ServesLD w 1 (pageUrl canon (lastPageNo (totalCount d1))) c dfin jfin
  else dfin = d1 /\ jfin = j1.

(** The item [Part001] adds to the feed for a JSON-LD element. *)
Definition itemOfElement (el : ListElement) : Item :=
  {| item_title := le_name el;
     item_id := le_url el;
     item_link := le_url el;
     item_description := le_url el;
     item_content := le_url el;
     item_image := hd_error (le_thumbnailUrl el);
     item_date := DateNow |}.

(** The same for [Part000], whose JSON-LD comes from [ld]. *)
Definition ServesLD000 (w : World) (ld : string -> Result Part000.JsonLD)
    (n : nat) (u : string) (canon : option string) (d : Data)
    (j : Part000.JsonLD) : Prop :=
  hasScheme u = true /\
  exists st b,
    net w n u = HttpResponse st b /\
    extractCanonicalUrl (load w b) = canon /\
    dataOf (load w b) = Some d /\
    ld b = Ok j.

Definition FinalLD000 (w : World) (ld : string -> Result Part000.JsonLD)
    (canon : option string) (d1 : Data) (j1 : Part000.JsonLD)
    (dfin : Data) (jfin : Part000.JsonLD) : Prop :=
  if 100 <? totalCount d1 then
    exists c,
      ServesLD000 w ld 1 (pageUrl canon (lastPageNo (totalCount d1))) c
        dfin jfin
  else dfin = d1 /\ jfin = j1.

(** The item [Part000] adds to the feed for a JSON-LD element. *)
Definition itemOfElement000 (el : Part000.ListElement) : Item :=
  {| item_title := Part000.el_name el;
     item_id := Part000.el_url el;
     item_link := Part000.el_url el;
     item_description := Part000.el_description el;
     item_content := Part000.el_url el;
     item_image := hd_error (Part000.el_thumbnailUrl el);
     item_date := DateOf (Part000.el_uploadDate el) |}.

(** ** More canned pages *)

Module Pages.

Definition element (n : string) : ListElement :=
  {| le_url := "https://www.nicovideo.jp/watch/sm" ++ n;
     le_name := "title " ++ n;
     le_thumbnailUrl := ["https://img.example/" ++ n] |}.

Definition withJsonLD (doc : CheerioAPI) (l : list ListElement) : CheerioAPI :=
  {| canonical_href := canonical_href doc;
     initial_data_attr := initial_data_attr doc;
     last_script_json := Ok {| itemListElement := l |} |}.

(** [Fixture.loadPage], with a last page under another title, and pages
    that carry a JSON-LD script. *)
Definition loadPage (b : string) : CheerioAPI :=
  if (b =? "lastU")%string then
    Fixture.mkDoc None (Fixture.mkData "U" 7 [Fixture.v2])
  else if (b =? "ld")%string then
    withJsonLD
      (Fixture.mkDoc (Some Fixture.canonical)
         (Fixture.mkData "S" 2 [Fixture.v1; Fixture.v2]))
      [element "1"; element "2"]
  else if (b =? "ldBig")%string then
    withJsonLD
      (Fixture.mkDoc (Some Fixture.canonical)
         (Fixture.mkData "S" 250 [Fixture.v1]))
      [element "1"]
  else if (b =? "ldLast")%string then
    withJsonLD
      (Fixture.mkDoc (Some Fixture.canonical)
         (Fixture.mkData "L" 250 [Fixture.v3]))
      [element "7"; element "8"; element "9"]
  else if (b =? "notJson")%string then
    {| canonical_href := Some Fixture.canonical;
       initial_data_attr :=
         initial_data_attr
           (Fixture.mkDoc None (Fixture.mkData "S" 1 [Fixture.v1]));
       last_script_json :=
         Throw (SyntaxError "Unexpected token < in JSON at position 0") |}
  else Fixture.loadPage b.

Definition world (first second : FetchResult) : World :=
  {| net := Fixture.site first second; load := loadPage;
     rss2 := fun f => Ok (Fixture.rssLinks f);
     logWrite := fun _ _ => None;
     SERIES_ID := None; isDevelopment := false |}.

(** The error of the serialiser on an image it cannot parse as a URL. *)
Definition invalidUrl : Error := TypeError "Invalid URL".

(** A world whose serialiser throws on every feed. *)
Definition brokenSerialiser (first second : FetchResult) : World :=
  {| net := Fixture.site first second; load := loadPage;
     rss2 := fun _ => Throw invalidUrl;
     logWrite := fun _ _ => None;
     SERIES_ID := None; isDevelopment := false |}.

Definition element000 (n : string) : Part000.ListElement :=
  {| Part000.el_url := "https://www.nicovideo.jp/watch/sm" ++ n;
     Part000.el_name := "title " ++ n;
     Part000.el_thumbnailUrl := ["https://img.example/" ++ n];
     Part000.el_uploadDate := "2022-05-0" ++ n ++ "T12:00:00+09:00";
     Part000.el_description := "about " ++ n |}.

Definition jsonLD000 (b : string) : Result Part000.JsonLD :=
  if (b =? "ldBig")%string then
    Ok {| Part000.itemListElement := [element000 "1"] |}
  else if (b =? "ldLast")%string then
    Ok {| Part000.itemListElement :=
            [element000 "7"; element000 "8"; element000 "9"] |}
  else if (b =? "notJson")%string then
    Throw (SyntaxError "Unexpected token < in JSON at position 0")
  else Throw Fixture.noScript.

End Pages.

(** * Properties *)

(** ** The pure helpers *)

Lemma fetchedUrls_app (a b : list Event) :
  fetchedUrls (a ++ b) = (fetchedUrls a ++ fetchedUrls b)%list.
Proof. unfold fetchedUrls. apply flat_map_app. Qed.

Lemma seriesUrl_hasScheme (sid : option string) :
  hasScheme (seriesUrl sid) = true.
Proof. reflexivity. Qed.

Lemma containsColon_app (a b : string) :
  containsColon (a ++ b) = containsColon a || containsColon b.
Proof.
  induction a as [|c a IH]; cbn [append containsColon]; [reflexivity|].
  now rewrite IH, orb_assoc.
Qed.

Lemma digits_no_colon (d : Decimal.uint) :
  containsColon (NilEmpty.string_of_uint d) = false.
Proof. induction d; cbn; assumption || reflexivity. Qed.

Lemma show_no_colon (n : Z) : containsColon (show n) = false.
Proof.
  unfold show, NilZero.string_of_int.
  destruct (Z.to_int n) as [d|d]; unfold NilZero.string_of_uint.
  - destruct d; try reflexivity; apply digits_no_colon.
  - cbn [containsColon]. destruct d; try reflexivity; apply digits_no_colon.
Qed.

(** The address built from a missing canonical link has no scheme. *)
Lemma undefined_page_no_scheme (n : Z) :
  hasScheme (pageUrl None n) = false.
Proof.
  unfold hasScheme, pageUrl. cbn [interp crossFetchUrl].
  change (crossFetchUrl ("undefined" ++ "?page=" ++ show n))
    with ("undefined?page=" ++ show n).
  rewrite containsColon_app, show_no_colon. reflexivity.
Qed.

Lemma check_stages (w : World) (req : option Request) (s : State) :
  Index.check w req s = Index.staged w req s.
Proof.
  unfold Index.check, Index.staged, Index.firstPage, Index.lastPage,
    Index.respond.
  destruct (negb (truthy (nullish (querySeriesId req) (SERIES_ID w))));
    [reflexivity|].
  unfold bind.
  destruct (startSpan "fetch" s) as [s1 [sp|e]]; [|reflexivity].
  destruct (fetchText w _ s1) as [s2 [b|e]]; [|reflexivity].
  destruct (spanEnd sp s2) as [s3 [[]|e]]; [|reflexivity].
  destruct (startSpan "parse" s3) as [s4 [sp2|e]]; [|reflexivity].
  destruct (nvapi0BodyData _ s4) as [s5 [d|e]]; [|reflexivity].
  destruct (spanEnd sp2 s5) as [s6 [[]|e]]; [|reflexivity].
  unfold ret.
  destruct (100 <? totalCount d); [|reflexivity].
  destruct (startSpan "reFetch" s6) as [s7 [sp3|e]]; [|reflexivity].
  destruct (fetchText w _ s7) as [s8 [b2|e]]; [|reflexivity].
  destruct (spanEnd sp3 s8) as [s9 [[]|e]]; [|reflexivity].
  destruct (startSpan "reParse" s9) as [s10 [sp4|e]]; [|reflexivity].
  destruct (nvapi0BodyData _ s10) as [s11 [d2|e]]; [|reflexivity].
  destruct (spanEnd sp4 s11) as [s12 [[]|e]]; reflexivity.
Qed.

(** ** Arithmetic of the page number *)

Lemma lastPageNo_ceilDiv (n : Z) : lastPageNo n = ceilDiv n 100.
Proof.
  unfold lastPageNo, ceilDiv.
  destruct (Z.rem n 100 =? 0) eqn:E; cbn [negb].
  - apply Z.eqb_eq in E. Z.to_euclidean_division_equations. lia.
  - apply Z.eqb_neq in E. Z.to_euclidean_division_equations. lia.
Qed.

Lemma lastPageNo_bounds (n : Z) :
  100 * (lastPageNo n - 1) < n <= 100 * lastPageNo n.
Proof.
  unfold lastPageNo.
  destruct (Z.rem n 100 =? 0) eqn:E; cbn [negb].
  - apply Z.eqb_eq in E. Z.to_euclidean_division_equations. lia.
  - apply Z.eqb_neq in E. Z.to_euclidean_division_equations. lia.
Qed.

(** ** The stages, run *)

Lemma writeLog_run (w : World) (m : LogEntry) (d : LogData) (s : State) :
  writeLog w m d s
  = ({| trace := trace s ++ [logEvent w m d]; res := res s;
        fetchCount := fetchCount s; rootContext := rootContext s;
        unhandled := unhandled s ++ logRejection w m d |}, Ok tt).
Proof.
  unfold writeLog, logEvent, logRejection.
  destruct (isDevelopment w).
  - unfold emit. now rewrite app_nil_r.
  - cbv [bind emit]. destruct (logWrite w m d); cbv [reject ret];
      cbn [trace res fetchCount rootContext unhandled];
      [reflexivity|now rewrite app_nil_r].
Qed.

Lemma nvapi0BodyData_ok (doc : CheerioAPI) (d : Data) (s : State) :
  dataOf doc = Some d ->
  nvapi0BodyData (extractInitialAPIData doc) s = (s, Ok d).
Proof.
  unfold dataOf, nvapi0BodyData.
  destruct (extractInitialAPIData doc) as [i|]; [|discriminate].
  destruct (nvapi i) as [|e l]; [discriminate|].
  now intros [= <-].
Qed.

Lemma nvapi0BodyData_unparsable (doc : CheerioAPI) :
  dataOf doc = None ->
  exists msg, forall s,
    nvapi0BodyData (extractInitialAPIData doc) s = (s, Throw (TypeError msg)).
Proof.
  unfold dataOf, nvapi0BodyData.
  destruct (extractInitialAPIData doc) as [i|]; [|eexists; reflexivity].
  destruct (nvapi i) as [|e l]; [eexists; reflexivity|discriminate].
Qed.

Lemma nvapi0BodyData_throws (doc : CheerioAPI) (s : State) :
  dataOf doc = None ->
  exists e, nvapi0BodyData (extractInitialAPIData doc) s = (s, Throw e).
Proof.
  intros H. destruct (nvapi0BodyData_unparsable doc H) as [msg Hm].
  eexists. apply Hm.
Qed.

Ltac run_monad :=
  cbv [bind startSpan fetchText fetch spanEnd emit ret throw statusSend
       setRootContext tryAwait setStatus sendBody callRss2 whenResponse
       reject];
  cbn [trace res fetchCount rootContext unhandled fst snd app].

Ltac norm_trace := repeat rewrite <- app_assoc; cbn [app]; rewrite ?app_nil_r.

Lemma firstPage_serves w req r sid canon d :
  Resolves w req sid -> Serves w 0 (seriesUrl sid) canon d ->
  Index.firstPage w req (Index.startState req r)
  = (afterFirst req r sid, Ok (sid, canon, d)).
Proof.
  intros [Hs Ht] (_ & st & b & Hn & Hc & Hd).
  unfold Index.firstPage. rewrite Hs, Ht. cbn [negb].
  unfold Index.startState. run_monad.
  rewrite seriesUrl_hasScheme, Hn. run_monad.
  rewrite (nvapi0BodyData_ok _ _ _ Hd), Hc. reflexivity.
Qed.

Lemma lastPage_small w canon d s :
  totalCount d <= 100 -> Index.lastPage w canon d s = (s, Ok d).
Proof.
  intros H. unfold Index.lastPage.
  destruct (Z.ltb_spec 100 (totalCount d)); [lia|reflexivity].
Qed.

Lemma lastPage_serves w canon d s c d2 :
  100 < totalCount d ->
  Serves w (fetchCount s) (pageUrl canon (lastPageNo (totalCount d))) c d2 ->
  Index.lastPage w canon d s
  = (afterLast s (pageUrl canon (lastPageNo (totalCount d))), Ok d2).
Proof.
  intros H (Ha & st & b & Hn & _ & Hd). unfold Index.lastPage.
  destruct (Z.ltb_spec 100 (totalCount d)); [|lia].
  run_monad. rewrite Ha, Hn. run_monad.
  rewrite (nvapi0BodyData_ok _ _ _ Hd). run_monad. unfold afterLast.
  norm_trace. reflexivity.
Qed.

(** Whatever the site answers, the second stage of a long series performs
    one fetch, of the last page, and touches neither the response nor the
    feed. *)
Lemma lastPage_large w canon d s :
  100 < totalCount d ->
  exists evs,
    trace (fst (Index.lastPage w canon d s)) = (trace s ++ evs)%list /\
    fetchedUrls evs = [pageUrl canon (lastPageNo (totalCount d))] /\
    existsb isFeedEvent evs = false /\
    res (fst (Index.lastPage w canon d s)) = res s /\
    unhandled (fst (Index.lastPage w canon d s)) = unhandled s.
Proof.
  intros H. unfold Index.lastPage.
  destruct (Z.ltb_spec 100 (totalCount d)); [|lia].
  set (u := pageUrl canon (lastPageNo (totalCount d))).
  run_monad.
  destruct (hasScheme u).
  - destruct (net w (fetchCount s) u) as [|st b].
    + norm_trace. eexists. repeat split; reflexivity.
    + run_monad.
      destruct (dataOf (load w b)) as [d2|] eqn:Hd.
      * rewrite (nvapi0BodyData_ok _ _ _ Hd). run_monad. norm_trace.
        eexists. repeat split; reflexivity.
      * match goal with
        | |- context [nvapi0BodyData _ ?s0] =>
            destruct (nvapi0BodyData_throws _ s0 Hd) as [e ->]
        end.
        run_monad. norm_trace. eexists. repeat split; reflexivity.
  - norm_trace. eexists. repeat split; reflexivity.
Qed.

Lemma tail_run w sid canon cnt d s :
  tryAwait (Index.respond w sid canon cnt d) (Index.onError w) s
  = (answered s
       (tailEvents w sid canon cnt d (rootContext s) (present (res s)))
       (tailRejections w sid canon cnt d (present (res s)))
       (respondAnswer w sid d), Ok tt).
Proof.
  unfold Index.respond, Index.onError, answered, tailEvents, tailRejections,
    respondEvents, respondRejections, respondError, respondAnswer,
    sendEvents, sendError, errorEvent, feedOf, present.
  cbn [fst snd countRecord noEntriesRecord successRecord errorRecord].
  unfold tryAwait. cbv [bind]. rewrite writeLog_run.
  destruct (List.length (Index.entriesOf d) =? 0)%nat.
  - cbv [bind]. rewrite writeLog_run. run_monad. norm_trace.
    destruct (res s); reflexivity.
  - run_monad. rewrite writeLog_run.
    destruct (isDevelopment w) eqn:Hdev;
      destruct (rss2 w (Index.buildFeed sid (detail_title (detail d))
                          (Index.entriesOf d))) as [xml|e];
      destruct (res s) as [r0|]; run_monad; rewrite ?writeLog_run;
      run_monad; cbn [orb]; norm_trace; try reflexivity.
Qed.

Lemma onError_run w e s :
  Index.onError w e s
  = (answered s [errorEvent w e]
       (logRejection w (fst (errorRecord e)) (snd (errorRecord e)))
       serverErrorAnswer, Ok tt).
Proof.
  unfold Index.onError, answered, errorEvent, serverErrorAnswer.
  cbn [fst snd errorRecord]. cbv [bind]. rewrite writeLog_run.
  run_monad. reflexivity.
Qed.

Lemma scrape_run w req r :
  Index.run w req r
  = fst (tryAwait (Index.staged w req) (Index.onError w)
           (Index.startState req r)).
Proof.
  unfold Index.run, Index.scrape, Index.startState, initState.
  cbv [bind setRootContext tryAwait]. cbn [trace res fetchCount rootContext unhandled].
  rewrite check_stages. reflexivity.
Qed.

Lemma run_first w req r sid canon d :
  Resolves w req sid -> Serves w 0 (seriesUrl sid) canon d ->
  Index.run w req r
  = fst (tryAwait
           (final <- Index.lastPage w canon d ;;
            Index.respond w sid canon (totalCount d) final)
           (Index.onError w) (afterFirst req r sid)).
Proof.
  intros Hr H1. rewrite scrape_run.
  unfold tryAwait, Index.staged. cbv [bind].
  rewrite (firstPage_serves _ _ r _ _ _ Hr H1). reflexivity.
Qed.

(** The third stage and the [catch] clause, after a second stage that
    gave [d2]. *)
Lemma tail_after w sid canon cnt d d2 s s2 :
  Index.lastPage w canon d s = (s2, Ok d2) ->
  fst (tryAwait
         (final <- Index.lastPage w canon d ;;
          Index.respond w sid canon cnt final)
         (Index.onError w) s)
  = answered s2
      (tailEvents w sid canon cnt d2 (rootContext s2) (present (res s2)))
      (tailRejections w sid canon cnt d2 (present (res s2)))
      (respondAnswer w sid d2).
Proof.
  intros H. pose proof (tail_run w sid canon cnt d2 s2) as T.
  unfold tryAwait in *. cbv [bind]. rewrite H.
  destruct (Index.respond w sid canon cnt d2 s2) as [s3 [[]|e]];
    rewrite T; reflexivity.
Qed.

Lemma beforeRespond_res req r sid canon d1 :
  res (beforeRespond req r sid canon d1) = r.
Proof. unfold beforeRespond. now destruct (100 <? totalCount d1). Qed.

Lemma beforeRespond_context req r sid canon d1 :
  rootContext (beforeRespond req r sid canon d1) = headerTraceparent req.
Proof. unfold beforeRespond. now destruct (100 <? totalCount d1). Qed.

Lemma beforeRespond_unhandled req r sid canon d1 :
  unhandled (beforeRespond req r sid canon d1) = [].
Proof. unfold beforeRespond. now destruct (100 <? totalCount d1). Qed.

Lemma beforeRespond_no_feed req r sid canon d1 :
  existsb isFeedEvent (trace (beforeRespond req r sid canon d1)) = false.
Proof. unfold beforeRespond. now destruct (100 <? totalCount d1). Qed.

Lemma run_reaches w req r sid canon d1 dfin :
  Reaches w req sid canon d1 dfin ->
  Index.run w req r
  = answered (beforeRespond req r sid canon d1)
      (tailEvents w sid canon (totalCount d1) dfin (headerTraceparent req)
         (present r))
      (tailRejections w sid canon (totalCount d1) dfin (present r))
      (respondAnswer w sid dfin).
Proof.
  intros (Hr & H1 & Hf). rewrite (run_first _ _ r _ _ _ Hr H1).
  unfold FinalData in Hf.
  assert (HL : Index.lastPage w canon d1 (afterFirst req r sid)
               = (beforeRespond req r sid canon d1, Ok dfin)).
  { unfold beforeRespond.
    destruct (Z.ltb_spec 100 (totalCount d1)) as [Hlt|Hle].
    - destruct Hf as [c Hs]. now apply (lastPage_serves _ _ _ _ c).
    - subst dfin. now apply lastPage_small. }
  rewrite (tail_after _ _ _ _ _ _ _ _ HL).
  now rewrite beforeRespond_res, beforeRespond_context.
Qed.

(** ** Entries and feed items *)

Lemma buildFeed_items (sid : option string) (t : string)
    (l : list Index.Entry) :
  feed_items (Index.buildFeed sid t l) = map Index.feedItem l.
Proof.
  unfold Index.buildFeed.
  enough (G : forall f, feed_items
                (fold_left (fun feed entry => addItem feed (Index.feedItem entry)) l f)
              = (feed_items f ++ map Index.feedItem l)%list)
    by (rewrite G; reflexivity).
  induction l as [|e l IH]; intros f; cbn [fold_left map].
  - now rewrite app_nil_r.
  - rewrite IH. cbn [addItem feed_items]. now rewrite <- app_assoc.
Qed.

Lemma entriesOf_length (d : Data) :
  List.length (Index.entriesOf d) = Nat.min 20 (List.length (items d)).
Proof.
  unfold Index.entriesOf, slice0.
  now rewrite length_map, length_firstn, length_rev.
Qed.

Lemma entriesOf_last_20 (d : Data) :
  Index.entriesOf d
  = map Index.extractEntry
      (rev (skipn (List.length (items d) - 20) (items d))).
Proof. unfold Index.entriesOf, slice0. now rewrite firstn_rev. Qed.

Lemma entriesOf_nonempty (d : Data) :
  (1 <= List.length (items d))%nat ->
  (List.length (Index.entriesOf d) =? 0)%nat = false.
Proof.
  intros H. rewrite entriesOf_length. apply Nat.eqb_neq. lia.
Qed.

Lemma entriesOf_empty (d : Data) :
  items d = [] -> (List.length (Index.entriesOf d) =? 0)%nat = true.
Proof. intros H. unfold Index.entriesOf. now rewrite H. Qed.

Lemma errorEvent_no_fetch w e : fetchedUrls [errorEvent w e] = [].
Proof. unfold errorEvent, logEvent. now destruct (isDevelopment w). Qed.

Lemma tailEvents_no_fetch w sid canon cnt d ctx has :
  fetchedUrls (tailEvents w sid canon cnt d ctx has) = [].
Proof.
  unfold tailEvents, respondEvents, respondError, sendEvents, sendError,
    errorEvent, logEvent.
  destruct (isDevelopment w), (List.length (Index.entriesOf d) =? 0)%nat,
    (rss2 w (feedOf sid d)), has; reflexivity.
Qed.

(** ** The claims *)

(** C4. [extractEntry] maps a raw item to an entry whose link is the watch
    URL of the item's id, whose title, image, date and description are the
    item's title, thumbnail URL, registration timestamp and short
    description; the item [check] adds to the feed for an entry has the
    entry's link as id, link and content, its title, description and image,
    and [new Date(entry.date)] as date; the feed built from a list of
    entries holds exactly these items, in order. *)
Theorem extractEntry_feedItem_fields (v : VideoItemType)
    (sid : option string) (t : string) (l : list Index.Entry) :
  let e := Index.extractEntry v in
  let i := Index.feedItem e in
  (Index.link e = "https://www.nicovideo.jp/watch/" ++ video_id (video v) /\
   Index.title e = video_title (video v) /\
   Index.image e = url (thumbnail (video v)) /\
   Index.date e = registeredAt (video v) /\
   Index.description e = shortDescription (video v)) /\
  (item_id i = Index.link e /\
   item_content i = Index.link e /\
   item_link i = Index.link e /\
   item_title i = Index.title e /\
   item_description i = Index.description e /\
   item_image i = Some (Index.image e) /\
   item_date i = DateOf (Index.date e)) /\
  feed_items (Index.buildFeed sid t l) = map Index.feedItem l.
Proof.
  cbv zeta. split; [|split].
  - repeat split.
  - repeat split.
  - apply buildFeed_items.
Qed.

Lemma second_fetch_one_page w req r sid canon d :
  Resolves w req sid ->
  Serves w 0 (seriesUrl sid) canon d ->
  totalCount d <= 100 ->
  fetchedUrls (trace (Index.run w req r)) = [seriesUrl sid].
Proof.
  intros Hr H1 Hle.
  rewrite (run_first _ _ r _ _ _ Hr H1),
    (tail_after _ _ _ _ _ _ _ _ (lastPage_small _ _ _ _ Hle)).
  cbn [answered trace afterFirst].
  change (EvSpanStart "fetch" (headerTraceparent req)
          :: EvFetch (seriesUrl sid) :: EvSpanEnd "fetch"
          :: EvSpanStart "parse" (headerTraceparent req)
          :: EvSpanEnd "parse" :: ?t)
    with ([EvSpanStart "fetch" (headerTraceparent req);
           EvFetch (seriesUrl sid); EvSpanEnd "fetch";
           EvSpanStart "parse" (headerTraceparent req);
           EvSpanEnd "parse"] ++ t)%list.
  rewrite fetchedUrls_app, tailEvents_no_fetch. reflexivity.
Qed.

Lemma second_fetch_last_page w req r sid canon d :
  Resolves w req sid ->
  Serves w 0 (seriesUrl sid) canon d ->
  100 < totalCount d ->
  fetchedUrls (trace (Index.run w req r))
  = [seriesUrl sid; pageUrl canon (lastPageNo (totalCount d))].
Proof.
  intros Hr H1 Hlt. rewrite (run_first _ _ r _ _ _ Hr H1).
  destruct (lastPage_large w canon d (afterFirst req r sid) Hlt)
    as (evs & Ht & Hf & _).
  destruct (Index.lastPage w canon d (afterFirst req r sid))
    as [s2 [d2|e]] eqn:HL; cbn [fst] in Ht.
  - rewrite (tail_after _ _ _ _ _ _ _ _ HL). cbn [answered trace].
    rewrite Ht, !fetchedUrls_app, Hf, tailEvents_no_fetch. reflexivity.
  - unfold tryAwait. cbv [bind]. rewrite HL, onError_run.
    cbn [fst answered trace].
    rewrite Ht, !fetchedUrls_app, Hf, errorEvent_no_fetch. reflexivity.
Qed.

(** C1. Once the first page is fetched and parsed, a second fetch happens
    exactly when [totalCount] exceeds 100: the fetches of the run are the
    first page alone when [totalCount <= 100], and the first page followed
    by one fetch when [100 < totalCount], whose address is the canonical
    link of the first page (the text [undefined] when there is none)
    followed by [?page=] and the decimal numeral of
    [ceil(totalCount / 100)].  The rule of the code, the floor of the
    quotient plus one when the remainder is not zero, is that ceiling (the
    least [p] with [n <= 100 * p]); for 250 it gives page 3, written
    [3]. *)
Theorem second_fetch_iff_above_100 w req r s canon d :
  Resolves w req (Some s) ->
  Serves w 0 ("https://www.nicovideo.jp/series/" ++ s) canon d ->
  (totalCount d <= 100 ->
   fetchedUrls (trace (Index.run w req r))
   = ["https://www.nicovideo.jp/series/" ++ s]) /\
  (100 < totalCount d ->
   fetchedUrls (trace (Index.run w req r))
   = ["https://www.nicovideo.jp/series/" ++ s;
      match canon with Some c => c | None => "undefined" end
      ++ "?page="
      ++ NilZero.string_of_int (Z.to_int (ceilDiv (totalCount d) 100))]) /\
  (forall n, lastPageNo n = ceilDiv n 100 /\
             100 * (ceilDiv n 100 - 1) < n <= 100 * ceilDiv n 100) /\
  lastPageNo 250 = 3 /\
  NilZero.string_of_int (Z.to_int (ceilDiv 250 100)) = "3".
Proof.
  intros Hr H1. split; [|split; [|split; [|split]]].
  - intros Hle.
    exact (second_fetch_one_page w req r (Some s) canon d Hr H1 Hle).
  - intros Hlt. rewrite <- lastPageNo_ceilDiv.
    exact (second_fetch_last_page w req r (Some s) canon d Hr H1 Hlt).
  - intros n. split; [apply lastPageNo_ceilDiv|].
    rewrite <- lastPageNo_ceilDiv. apply lastPageNo_bounds.
  - reflexivity.
  - reflexivity.
Qed.

Lemma second_fetch_iff_above_100_witness :
  fetchedUrls
    (trace (Index.run
              (Fixture.world (HttpResponse 200 "big") (HttpResponse 200 "last"))
              (Fixture.request "42") (Some freshResponse)))
  = ["https://www.nicovideo.jp/series/42";
     "https://www.nicovideo.jp/series/42?page=3"].
Proof.
  refine (proj1 (proj2
    (second_fetch_iff_above_100
       (Fixture.world (HttpResponse 200 "big") (HttpResponse 200 "last"))
       (Fixture.request "42") (Some freshResponse) "42"
       (Some Fixture.canonical) (Fixture.mkData "S" 250 [Fixture.v1])
       _ _)) _).
  - split; reflexivity.
  - split; [reflexivity|]. exists 200, "big". repeat split; reflexivity.
  - cbn. lia.
Defined.

(** C2. When entries are built from an item list of length [L >= 1], a
    feed is constructed and handed to the serialiser whose items are the
    entries, one item per entry in the same order; the request is answered
    200 with the serialisation when the serialiser returns, and 500 when
    it throws.  There are [min(20, L)] entries; they are the items
    reversed, then cut to the first 20, which is the last 20 items in
    reverse; and the items [v1, v2, v3] give the entries of [v3, v2, v1]
    in that order. *)
Theorem entries_are_last_20_reversed w req r sid canon d1 dfin :
  Reaches w req sid canon d1 dfin ->
  (1 <= List.length (items dfin))%nat ->
  let emitted := Index.entriesOf dfin in
  let feed := Index.buildFeed sid (detail_title (detail dfin)) emitted in
  In (EvRss2 feed) (trace (Index.run w req (Some r))) /\
  (forall xml,
     rss2 w feed = Ok xml ->
     res (Index.run w req (Some r))
     = Some {| statusCode := 200; sent := Some xml |}) /\
  (forall e,
     rss2 w feed = Throw e ->
     res (Index.run w req (Some r))
     = Some {| statusCode := 500; sent := Some serverError |}) /\
  feed_items feed = map Index.feedItem emitted /\
  List.length emitted = Nat.min 20 (List.length (items dfin)) /\
  emitted = map Index.extractEntry (firstn 20 (rev (items dfin))) /\
  emitted = map Index.extractEntry
              (rev (skipn (List.length (items dfin) - 20) (items dfin))) /\
  (forall t n a b c,
     Index.entriesOf {| detail := t; totalCount := n; items := [a; b; c] |}
     = [Index.extractEntry c; Index.extractEntry b; Index.extractEntry a]).
Proof.
  intros HR HL. cbv zeta. rewrite (run_reaches _ _ (Some r) _ _ _ _ HR).
  unfold answered, respondAnswer, tailEvents, respondEvents, respondError,
    sendEvents, sendError, feedOf.
  cbn [res trace present]. rewrite beforeRespond_res, (entriesOf_nonempty _ HL).
  split; [|split; [|split]].
  - apply in_or_app. right. apply in_or_app. left. right.
    apply in_or_app. right.
    destruct (rss2 w _); [|rewrite orb_true_r; now left].
    apply in_or_app. right. now left.
  - intros xml ->. reflexivity.
  - intros e ->. reflexivity.
  - repeat split.
    + apply buildFeed_items.
    + apply entriesOf_length.
    + apply entriesOf_last_20.
Qed.

Lemma entries_are_last_20_reversed_witness :
  res (Index.run
         (Fixture.world (HttpResponse 200 "three") NetworkError)
         (Fixture.request "42") (Some freshResponse))
  = Some {| statusCode := 200;
            sent := Some (
              "https://www.nicovideo.jp/watch/sm3," ++
              "https://www.nicovideo.jp/watch/sm2," ++
              "https://www.nicovideo.jp/watch/sm1") |}.
Proof.
  refine (proj1 (proj2
    (entries_are_last_20_reversed
       (Fixture.world (HttpResponse 200 "three") NetworkError)
       (Fixture.request "42") freshResponse (Some "42")
       (Some Fixture.canonical)
       (Fixture.mkData "S" 3 [Fixture.v1; Fixture.v2; Fixture.v3])
       (Fixture.mkData "S" 3 [Fixture.v1; Fixture.v2; Fixture.v3])
       _ _)) _ _).
  - split; [split; reflexivity|]. split; [|reflexivity].
    split; [reflexivity|]. exists 200, "three". repeat split; reflexivity.
  - cbn. lia.
  - reflexivity.
Defined.

(** C6. When the item list the entries are built from is empty, the
    request is answered 404 with the body "No entries found", and the run
    neither constructs nor serialises a feed. *)
Theorem empty_items_answer_404 w req r sid canon d1 dfin :
  Reaches w req sid canon d1 dfin ->
  items dfin = [] ->
  res (Index.run w req (Some r))
  = Some {| statusCode := 404; sent := Some "No entries found" |} /\
  existsb isFeedEvent (trace (Index.run w req (Some r))) = false.
Proof.
  intros HR HE. rewrite (run_reaches _ _ (Some r) _ _ _ _ HR).
  unfold answered, respondAnswer, tailEvents, respondEvents, respondError.
  cbn [res trace]. rewrite beforeRespond_res, (entriesOf_empty _ HE).
  split; [reflexivity|].
  rewrite existsb_app, beforeRespond_no_feed.
  unfold logEvent. now destruct (isDevelopment w).
Qed.

Lemma empty_items_answer_404_witness :
  res (Index.run
         (Fixture.world (HttpResponse 200 "empty") NetworkError)
         (Fixture.request "42") (Some freshResponse))
  = Some {| statusCode := 404; sent := Some "No entries found" |}.
Proof.
  refine (proj1
    (empty_items_answer_404
       (Fixture.world (HttpResponse 200 "empty") NetworkError)
       (Fixture.request "42") freshResponse (Some "42")
       (Some Fixture.canonical)
       (Fixture.mkData "S" 0 []) (Fixture.mkData "S" 0 [])
       _ _)).
  - split; [split; reflexivity|]. split; [|reflexivity].
    split; [reflexivity|]. exists 200, "empty". repeat split; reflexivity.
  - reflexivity.
Defined.

(** ** Runs in two worlds *)

Section Agreement.

Variables w1 w2 : World.
Hypothesis Hload : forall b, load w1 b = load w2 b.
Hypothesis Hrss : forall f, rss2 w1 f = rss2 w2 f.
Hypothesis Hlog : forall m d, logWrite w1 m d = logWrite w2 m d.
Hypothesis Hdev : isDevelopment w1 = isDevelopment w2.

Lemma logEvent_agree m d : logEvent w1 m d = logEvent w2 m d.
Proof. unfold logEvent. now rewrite Hdev. Qed.

Lemma logRejection_agree m d : logRejection w1 m d = logRejection w2 m d.
Proof. unfold logRejection. now rewrite Hdev, Hlog. Qed.

Lemma onError_agree e s : Index.onError w1 e s = Index.onError w2 e s.
Proof.
  rewrite !onError_run. unfold errorEvent.
  now rewrite logEvent_agree, logRejection_agree.
Qed.

Lemma tail_run_agree sid canon cnt d s :
  tryAwait (Index.respond w1 sid canon cnt d) (Index.onError w1) s
  = tryAwait (Index.respond w2 sid canon cnt d) (Index.onError w2) s.
Proof.
  rewrite !tail_run.
  assert (HE : respondError w1 sid d (present (res s))
               = respondError w2 sid d (present (res s))).
  { unfold respondError, sendError. now rewrite Hrss, Hdev. }
  unfold tailEvents, tailRejections. rewrite HE.
  unfold respondEvents, respondRejections, respondAnswer, sendEvents,
    errorEvent.
  rewrite !logEvent_agree, !logRejection_agree, !Hrss, !Hdev.
  destruct (respondError w2 sid d (present (res s)));
    rewrite ?logEvent_agree, ?logRejection_agree; reflexivity.
Qed.

Lemma lastPage_agree canon d d' s :
  totalCount d = totalCount d' ->
  100 < totalCount d \/ d = d' ->
  (forall u s', fetchCount s' = fetchCount s ->
                fetchText w1 u s' = fetchText w2 u s') ->
  Index.lastPage w1 canon d s = Index.lastPage w2 canon d' s.
Proof.
  intros Ht Hd Hf. unfold Index.lastPage. rewrite <- Ht.
  destruct (Z.ltb_spec 100 (totalCount d)) as [Hlt|Hle].
  - cbv [bind startSpan emit ret]. rewrite Hf by reflexivity.
    match goal with
    | |- context [fetchText w2 ?u ?s0] =>
        destruct (fetchText w2 u s0) as [s1 [b|e]]
    end; [|reflexivity].
    rewrite Hload. reflexivity.
  - destruct Hd as [Hd|Hd]; [lia|now subst].
Qed.

Lemma tail_agree sid canon d d' s :
  totalCount d = totalCount d' ->
  100 < totalCount d \/ d = d' ->
  (forall u s', fetchCount s' = fetchCount s ->
                fetchText w1 u s' = fetchText w2 u s') ->
  tryAwait (final <- Index.lastPage w1 canon d ;;
            Index.respond w1 sid canon (totalCount d) final)
           (Index.onError w1) s
  = tryAwait (final <- Index.lastPage w2 canon d' ;;
              Index.respond w2 sid canon (totalCount d') final)
             (Index.onError w2) s.
Proof.
  intros Ht Hd Hf.
  pose proof (lastPage_agree canon d d' s Ht Hd Hf) as HL.
  unfold tryAwait. cbv [bind]. rewrite HL, <- Ht.
  destruct (Index.lastPage w2 canon d' s) as [s1 [d2|e]].
  - pose proof (tail_run_agree sid canon (totalCount d) d2 s1) as T.
    unfold tryAwait in T. exact T.
  - apply onError_agree.
Qed.

End Agreement.

Lemma fetchText_beyond_first w1 w2 u s :
  SameBeyondFirstFetch w1 w2 -> fetchCount s <> O ->
  fetchText w1 u s = fetchText w2 u s.
Proof.
  intros (Hn & _) Hs. unfold fetchText, fetch. cbv [bind ret].
  now rewrite (Hn _ u Hs).
Qed.

Lemma fetchText_up_to_status w1 w2 u s :
  SameUpToStatus w1 w2 -> fetchText w1 u s = fetchText w2 u s.
Proof.
  intros (Hn & _). unfold fetchText, fetch. cbv [bind ret].
  specialize (Hn (fetchCount s) u).
  destruct (hasScheme u); [|reflexivity].
  destruct (net w1 (fetchCount s) u), (net w2 (fetchCount s) u);
    cbn in Hn; try contradiction; [reflexivity|now subst].
Qed.

Lemma firstPage_up_to_status w1 w2 req s :
  SameUpToStatus w1 w2 ->
  Index.firstPage w1 req s = Index.firstPage w2 req s.
Proof.
  intros H. pose proof H as (_ & Hl & _ & _ & He & _).
  unfold Index.firstPage. rewrite He.
  destruct (negb (truthy (nullish (querySeriesId req) (SERIES_ID w2))));
    [reflexivity|].
  cbv [bind startSpan emit ret]. rewrite (fetchText_up_to_status _ _ _ _ H).
  match goal with
  | |- context [fetchText w2 ?u ?s0] =>
      destruct (fetchText w2 u s0) as [s1 [b|e]]
  end; [|reflexivity].
  rewrite Hl. reflexivity.
Qed.

Lemma run_up_to_status w1 w2 req r :
  SameUpToStatus w1 w2 -> Index.run w1 req r = Index.run w2 req r.
Proof.
  intros H. pose proof H as (_ & Hl & Hr & Hg & _ & Hd).
  rewrite !scrape_run. unfold Index.staged, tryAwait. cbv [bind].
  rewrite (firstPage_up_to_status _ _ _ _ H).
  destruct (Index.firstPage w2 req (Index.startState req r))
    as [s1 [[[sid canon] d]|e]].
  - assert (Hf : forall u s', fetchCount s' = fetchCount s1 ->
                              fetchText w1 u s' = fetchText w2 u s')
      by (intros u s' _; now apply fetchText_up_to_status).
    pose proof (tail_agree w1 w2 Hl Hr Hg Hd sid canon d d s1 eq_refl
                  (or_intror eq_refl) Hf) as T.
    unfold tryAwait in T. cbv [bind] in T. rewrite T. reflexivity.
  - rewrite (onError_agree _ _ Hg Hd). reflexivity.
Qed.

(** ** The claims, continued *)

(** C3, as stated, fails: the number of entries is taken from the item
    list, not from [totalCount].  A page that reports [totalCount = 5] and
    lists one video is answered with a feed of one item, and
    [min(20, 5) = 5]. *)
Lemma count_is_not_min_20_totalCount :
  let w := Fixture.world (HttpResponse 200 "short") NetworkError in
  let d := Fixture.mkData "S" 5 [Fixture.v1] in
  Serves w 0 "https://www.nicovideo.jp/series/42" (Some Fixture.canonical) d /\
  totalCount d <= 100 /\
  res (Index.run w (Fixture.request "42") (Some freshResponse))
  = Some {| statusCode := 200;
            sent := Some "https://www.nicovideo.jp/watch/sm1" |} /\
  List.length (Index.entriesOf d) = 1%nat /\
  Z.of_nat (List.length (Index.entriesOf d)) <> Z.min 20 (totalCount d).
Proof.
  cbv zeta. split; [|split; [|split; [|split]]].
  - split; [reflexivity|]. exists 200, "short". repeat split; reflexivity.
  - cbn. lia.
  - reflexivity.
  - reflexivity.
  - cbn. lia.
Qed.

(** C3, amended.  When the first page reports [totalCount <= 100], the run
    fetches nothing else; the entries are built from the first page's item
    list alone, reversed and cut to the first 20; the request is answered
    404 when that list is empty, else 200 with the serialisation of their
    feed when the serialiser returns and 500 when it throws; there are
    [min(20, L)] entries, [L] the length of that list, which is
    [min(20, totalCount)] when the page lists [totalCount] items. *)
Theorem one_page_series_entries w req r sid canon d :
  Resolves w req sid ->
  Serves w 0 (seriesUrl sid) canon d ->
  totalCount d <= 100 ->
  let emitted := Index.entriesOf d in
  let feed := Index.buildFeed sid (detail_title (detail d)) emitted in
  fetchedUrls (trace (Index.run w req (Some r))) = [seriesUrl sid] /\
  res (Index.run w req (Some r))
  = Some (if (List.length (items d) =? 0)%nat
          then {| statusCode := 404; sent := Some "No entries found" |}
          else match rss2 w feed with
               | Ok xml => {| statusCode := 200; sent := Some xml |}
               | Throw _ => {| statusCode := 500; sent := Some serverError |}
               end) /\
  emitted = map Index.extractEntry (firstn 20 (rev (items d))) /\
  List.length emitted = Nat.min 20 (List.length (items d)) /\
  (Z.of_nat (List.length (items d)) = totalCount d ->
   Z.of_nat (List.length emitted) = Z.min 20 (totalCount d)).
Proof.
  intros Hr H1 Hle. cbv zeta.
  assert (HR : Reaches w req sid canon d d).
  { split; [exact Hr|]. split; [exact H1|]. unfold FinalData.
    destruct (Z.ltb_spec 100 (totalCount d)); [lia|reflexivity]. }
  split; [|split; [|split; [|split]]].
  - apply (second_fetch_one_page w req (Some r) sid canon d Hr H1 Hle).
  - rewrite (run_reaches _ _ (Some r) _ _ _ _ HR).
    unfold answered, respondAnswer, feedOf. cbn [res].
    rewrite beforeRespond_res, entriesOf_length.
    destruct (items d); reflexivity.
  - reflexivity.
  - apply entriesOf_length.
  - intros HL. rewrite entriesOf_length. lia.
Qed.

Lemma one_page_series_entries_witness :
  fetchedUrls
    (trace (Index.run (Fixture.world (HttpResponse 200 "short") NetworkError)
              (Fixture.request "42") (Some freshResponse)))
  = ["https://www.nicovideo.jp/series/42"].
Proof.
  refine (proj1
    (one_page_series_entries
       (Fixture.world (HttpResponse 200 "short") NetworkError)
       (Fixture.request "42") freshResponse (Some "42")
       (Some Fixture.canonical) (Fixture.mkData "S" 5 [Fixture.v1])
       _ _ _)).
  - split; reflexivity.
  - split; [reflexivity|]. exists 200, "short". repeat split; reflexivity.
  - cbn. lia.
Defined.

(** C5. Two runs of the same request whose first pages carry different
    payloads, with the same [totalCount] above 100 and the same canonical
    link, and whose worlds agree on everything after the first fetch, end
    in the same state: the same trace (fetches, log records, feed built and
    serialised) and the same response.  Of the first payload only
    [totalCount] is read. *)
Theorem first_page_payload_is_discarded w1 w2 req r sid canon d1 d1' :
  SameBeyondFirstFetch w1 w2 ->
  Resolves w1 req sid ->
  Serves w1 0 (seriesUrl sid) canon d1 ->
  Serves w2 0 (seriesUrl sid) canon d1' ->
  totalCount d1 = totalCount d1' ->
  100 < totalCount d1 ->
  Index.run w1 req r = Index.run w2 req r.
Proof.
  intros HS Hr H1 H2 Ht Hlt.
  pose proof HS as (_ & Hl & Hrs & Hg & He & Hd).
  assert (Hr2 : Resolves w2 req sid) by (destruct Hr; split; congruence).
  rewrite (run_first _ _ r _ _ _ Hr H1), (run_first _ _ r _ _ _ Hr2 H2).
  f_equal. apply tail_agree; auto.
  intros u s' Hs'. apply fetchText_beyond_first; [exact HS|].
  rewrite Hs'. discriminate.
Qed.

Lemma first_page_payload_is_discarded_witness :
  Index.run (Fixture.world (HttpResponse 200 "big") (HttpResponse 200 "last"))
    (Fixture.request "42") (Some freshResponse)
  = Index.run (Fixture.world (HttpResponse 200 "big'") (HttpResponse 200 "last"))
      (Fixture.request "42") (Some freshResponse).
Proof.
  refine (first_page_payload_is_discarded
    (Fixture.world (HttpResponse 200 "big") (HttpResponse 200 "last"))
    (Fixture.world (HttpResponse 200 "big'") (HttpResponse 200 "last"))
    (Fixture.request "42") (Some freshResponse) (Some "42")
    (Some Fixture.canonical)
    (Fixture.mkData "S" 250 [Fixture.v1])
    (Fixture.mkData "T" 250 [Fixture.v3; Fixture.v1])
    _ _ _ _ _ _).
  - repeat split. intros [|n] u Hn; [contradiction|reflexivity].
  - split; reflexivity.
  - split; [reflexivity|]. exists 200, "big". repeat split; reflexivity.
  - split; [reflexivity|]. exists 200, "big'". repeat split; reflexivity.
  - reflexivity.
  - cbn. lia.
Defined.

(** ** Failures *)

Lemma lastPage_rejects w canon d s :
  100 < totalCount d ->
  hasScheme (pageUrl canon (lastPageNo (totalCount d))) = false \/
  net w (fetchCount s) (pageUrl canon (lastPageNo (totalCount d)))
  = NetworkError ->
  exists e,
    Index.lastPage w canon d s
    = ({| trace := trace s ++
                   [EvSpanStart "reFetch" (rootContext s);
                    EvFetch (pageUrl canon (lastPageNo (totalCount d)))];
          res := res s; fetchCount := S (fetchCount s);
          rootContext := rootContext s; unhandled := unhandled s |},
       Throw e).
Proof.
  intros Hlt H. unfold Index.lastPage.
  destruct (Z.ltb_spec 100 (totalCount d)); [|lia].
  run_monad.
  destruct (hasScheme (pageUrl canon (lastPageNo (totalCount d)))).
  - destruct H as [H|H]; [discriminate|]. rewrite H.
    norm_trace. eexists. reflexivity.
  - norm_trace. eexists. reflexivity.
Qed.

Lemma firstPage_rejects w req r sid :
  Resolves w req sid ->
  net w 0 (seriesUrl sid) = NetworkError ->
  Index.firstPage w req (Index.startState req r)
  = ({| trace := [EvSpanStart "fetch" (headerTraceparent req);
                  EvFetch (seriesUrl sid)];
        res := r; fetchCount := 1;
        rootContext := headerTraceparent req; unhandled := [] |},
     Throw (FetchError (seriesUrl sid))).
Proof.
  intros [Hs Ht] Hn. unfold Index.firstPage. rewrite Hs, Ht. cbn [negb].
  unfold Index.startState. run_monad.
  rewrite seriesUrl_hasScheme, Hn. reflexivity.
Qed.

Lemma run_last_rejects w req r sid canon d :
  Resolves w req sid ->
  Serves w 0 (seriesUrl sid) canon d ->
  100 < totalCount d ->
  hasScheme (pageUrl canon (lastPageNo (totalCount d))) = false \/
  net w 1 (pageUrl canon (lastPageNo (totalCount d))) = NetworkError ->
  res (Index.run w req (Some r))
  = Some {| statusCode := 500; sent := Some serverError |} /\
  existsb isFeedEvent (trace (Index.run w req (Some r))) = false.
Proof.
  intros Hr H1 Hlt H. rewrite (run_first _ _ (Some r) _ _ _ Hr H1).
  unfold tryAwait. cbv [bind].
  destruct (lastPage_rejects w canon d (afterFirst req (Some r) sid) Hlt H)
    as [e ->].
  rewrite onError_run. unfold answered, errorEvent, logEvent.
  cbn [fst res trace afterFirst]. split; [reflexivity|].
  now destruct (isDevelopment w).
Qed.

(** C8, as stated, fails: [fetch] resolves for every HTTP status and the
    handler reads the text without looking at the status.  A first page
    served with status 404, or a last page served with status 503, whose
    text carries the embedded state, is answered 200 with the feed. *)
Lemma http_error_status_is_not_a_failure :
  let w := Fixture.world (HttpResponse 404 "three") NetworkError in
  let w' := Fixture.world (HttpResponse 200 "big") (HttpResponse 503 "last") in
  (net w 0 "https://www.nicovideo.jp/series/42" = HttpResponse 404 "three" /\
   res (Index.run w (Fixture.request "42") (Some freshResponse))
   = Some {| statusCode := 200;
             sent := Some ("https://www.nicovideo.jp/watch/sm3," ++
                           "https://www.nicovideo.jp/watch/sm2," ++
                           "https://www.nicovideo.jp/watch/sm1") |}) /\
  (net w' 1 "https://www.nicovideo.jp/series/42?page=3"
   = HttpResponse 503 "last" /\
   res (Index.run w' (Fixture.request "42") (Some freshResponse))
   = Some {| statusCode := 200;
             sent := Some ("https://www.nicovideo.jp/watch/sm3," ++
                           "https://www.nicovideo.jp/watch/sm2") |}).
Proof. cbv zeta. repeat split. Qed.

(** C8, amended.  A fetch whose promise rejects (a network error) is fatal
    for the request, on the first page and on the last page alike: the
    answer is 500 with the generic body and no fetch follows the failed one.
    The HTTP status of a response is not examined: two worlds whose sites
    give the same texts under different statuses end the request in the
    same state. *)
Theorem network_error_is_fatal_status_is_ignored w req r sid :
  Resolves w req sid ->
  (net w 0 (seriesUrl sid) = NetworkError ->
   res (Index.run w req (Some r))
   = Some {| statusCode := 500; sent := Some serverError |} /\
   fetchedUrls (trace (Index.run w req (Some r))) = [seriesUrl sid]) /\
  (forall canon d,
     Serves w 0 (seriesUrl sid) canon d ->
     100 < totalCount d ->
     net w 1 (pageUrl canon (lastPageNo (totalCount d))) = NetworkError ->
     res (Index.run w req (Some r))
     = Some {| statusCode := 500; sent := Some serverError |} /\
     fetchedUrls (trace (Index.run w req (Some r)))
     = [seriesUrl sid; pageUrl canon (lastPageNo (totalCount d))]) /\
  (forall w', SameUpToStatus w w' ->
              Index.run w req (Some r) = Index.run w' req (Some r)).
Proof.
  intros Hr. split; [|split].
  - intros Hn. rewrite scrape_run. unfold tryAwait, Index.staged. cbv [bind].
    rewrite (firstPage_rejects _ _ (Some r) _ Hr Hn), onError_run.
    unfold answered, errorEvent, logEvent. cbn [fst res trace].
    split; [reflexivity|]. now destruct (isDevelopment w).
  - intros canon d H1 Hlt Hn. split.
    + apply (run_last_rejects w req r sid canon d Hr H1 Hlt). now right.
    + apply second_fetch_last_page; assumption.
  - intros w' H. now apply run_up_to_status.
Qed.

Lemma network_error_is_fatal_status_is_ignored_witness :
  res (Index.run (Fixture.world NetworkError NetworkError)
         (Fixture.request "42") (Some freshResponse))
  = Some {| statusCode := 500;
            sent := Some "something went wrong. please check logs" |}.
Proof.
  refine (proj1 (proj1
    (network_error_is_fatal_status_is_ignored
       (Fixture.world NetworkError NetworkError)
       (Fixture.request "42") freshResponse (Some "42") _) _)).
  - split; reflexivity.
  - reflexivity.
Defined.

(** C9. A first page without a canonical link parses, and the absence
    alone fails nothing: when the series fits on one page the request is
    answered as it is with a link, 404 when there is no item, else 200
    with the serialisation of the feed when the serialiser returns and 500
    when it throws.  When the series is longer, the address of the last
    page is built from [undefined]; it has no scheme, the fetch rejects,
    and the request fails: it is answered 500 and no feed is
    constructed. *)
Theorem missing_canonical_url w req r sid d :
  Resolves w req sid ->
  Serves w 0 (seriesUrl sid) None d ->
  (totalCount d <= 100 ->
   res (Index.run w req (Some r))
   = Some (if (List.length (items d) =? 0)%nat
           then {| statusCode := 404; sent := Some "No entries found" |}
           else match rss2 w (Index.buildFeed sid
                                (detail_title (detail d))
                                (Index.entriesOf d)) with
                | Ok xml => {| statusCode := 200; sent := Some xml |}
                | Throw _ =>
                    {| statusCode := 500; sent := Some serverError |}
                end) /\
   fetchedUrls (trace (Index.run w req (Some r))) = [seriesUrl sid]) /\
  (100 < totalCount d ->
   let u := pageUrl None (lastPageNo (totalCount d)) in
   u = "undefined?page=" ++ show (lastPageNo (totalCount d)) /\
   hasScheme u = false /\
   fetchedUrls (trace (Index.run w req (Some r))) = [seriesUrl sid; u] /\
   res (Index.run w req (Some r))
   = Some {| statusCode := 500; sent := Some serverError |} /\
   existsb isFeedEvent (trace (Index.run w req (Some r))) = false).
Proof.
  intros Hr H1. split.
  - intros Hle.
    assert (HR : Reaches w req sid None d d).
    { split; [exact Hr|]. split; [exact H1|]. unfold FinalData.
      destruct (Z.ltb_spec 100 (totalCount d)); [lia|reflexivity]. }
    split;
      [|exact (second_fetch_one_page w req (Some r) sid None d Hr H1 Hle)].
    rewrite (run_reaches _ _ (Some r) _ _ _ _ HR).
    unfold answered, respondAnswer, feedOf. cbn [res].
    rewrite beforeRespond_res, entriesOf_length.
    destruct (items d); reflexivity.
  - intros Hlt. cbv zeta.
    split; [reflexivity|]. split; [apply undefined_page_no_scheme|].
    split; [apply second_fetch_last_page; assumption|].
    apply (run_last_rejects w req r sid None d Hr H1 Hlt). left.
    apply undefined_page_no_scheme.
Qed.

Lemma missing_canonical_url_witness :
  res (Index.run
         (Fixture.world (HttpResponse 200 "bigNoLink") (HttpResponse 200 "last"))
         (Fixture.request "42") (Some freshResponse))
  = Some {| statusCode := 500;
            sent := Some "something went wrong. please check logs" |}.
Proof.
  refine (proj1 (proj2 (proj2 (proj2 (proj2
    (missing_canonical_url
       (Fixture.world (HttpResponse 200 "bigNoLink") (HttpResponse 200 "last"))
       (Fixture.request "42") freshResponse (Some "42")
       (Fixture.mkData "S" 250 [Fixture.v1]) _ _) _))))).
  - split; reflexivity.
  - split; [reflexivity|]. exists 200, "bigNoLink". repeat split; reflexivity.
  - cbn. lia.
Defined.

(** C10. A request whose [seriesId] query parameter is the empty string
    keeps the empty string through the nullish coalescing, whatever
    [SERIES_ID] holds; the empty string is falsy, so [check] throws the
    missing-series-id error before any fetch, and the request is answered
    500. *)
Theorem empty_seriesId_does_not_fall_back (w : World)
    (hdrs : option Headers) (r : Response) :
  let req := Some {| query := Some {| seriesId := Some "" |};
                     headers := hdrs |} in
  nullish (querySeriesId req) (SERIES_ID w) = Some "" /\
  (forall s, Index.check w req s
             = (s, Throw (ErrorMsg "No series id specified"))) /\
  res (Index.run w req (Some r))
  = Some {| statusCode := 500; sent := Some serverError |} /\
  trace (Index.run w req (Some r))
  = [logEvent w {| severity := "ERROR"; labels := [] |}
       (Content (ErrorMsg "No series id specified"))].
Proof.
  cbv zeta. split; [reflexivity|]. split; [reflexivity|].
  rewrite scrape_run. unfold tryAwait, Index.staged, Index.firstPage.
  cbn [querySeriesId query seriesId nullish truthy String.eqb negb].
  cbv [bind throw]. rewrite onError_run. split; reflexivity.
Qed.

(** ** The top-level handler *)

Lemma firstPage_res w req s :
  res (fst (Index.firstPage w req s)) = res s.
Proof.
  unfold Index.firstPage.
  destruct (negb (truthy (nullish (querySeriesId req) (SERIES_ID w))));
    [reflexivity|].
  run_monad.
  destruct (hasScheme _); [|reflexivity].
  destruct (net w _ _) as [|st b]; [reflexivity|].
  run_monad.
  destruct (dataOf (load w b)) as [d|] eqn:Hd.
  - rewrite (nvapi0BodyData_ok _ _ _ Hd). reflexivity.
  - match goal with
    | |- context [nvapi0BodyData _ ?s0] =>
        destruct (nvapi0BodyData_throws _ s0 Hd) as [e ->]
    end.
    reflexivity.
Qed.

Lemma lastPage_res w canon d s :
  res (fst (Index.lastPage w canon d s)) = res s.
Proof.
  destruct (Z.ltb_spec 100 (totalCount d)) as [Hlt|Hle].
  - now destruct (lastPage_large w canon d s Hlt) as (evs & _ & _ & _ & H & _).
  - now rewrite lastPage_small.
Qed.

Lemma respond_present w sid canon cnt d s :
  present (res (fst (Index.respond w sid canon cnt d s))) = present (res s).
Proof.
  unfold Index.respond. cbv [bind]. rewrite writeLog_run.
  destruct (List.length (Index.entriesOf d) =? 0)%nat.
  - cbv [bind]. rewrite writeLog_run. run_monad. now destruct (res s).
  - run_monad. rewrite writeLog_run.
    destruct (isDevelopment w), (rss2 w _), (res s); reflexivity.
Qed.

(** In [src/index.ts], where [scrape] awaits [check], every failure thrown
    by [check] is caught: the request is answered 500 with the generic
    body, and the error itself is left unhandled nowhere. *)
Lemma awaited_check_failure_answers_500 w req r s e :
  Index.check w req (Index.startState req (Some r)) = (s, Throw e) ->
  res (Index.run w req (Some r))
  = Some {| statusCode := 500; sent := Some serverError |} /\
  unhandled (Index.run w req (Some r))
  = (unhandled s ++ logRejection w (fst (errorRecord e))
                      (snd (errorRecord e)))%list.
Proof.
  intros Hc.
  assert (Hres : present (res s) = true).
  { rewrite check_stages in Hc. unfold Index.staged in Hc. cbv [bind] in Hc.
    pose proof (firstPage_res w req (Index.startState req (Some r))) as H1.
    destruct (Index.firstPage w req (Index.startState req (Some r)))
      as [s1 [[[sid canon] d]|e1]]; cbn [fst] in H1.
    - pose proof (lastPage_res w canon d s1) as H2.
      destruct (Index.lastPage w canon d s1) as [s2 [d2|e2]]; cbn [fst] in H2.
      + pose proof (respond_present w sid canon (totalCount d) d2 s2) as H3.
        rewrite Hc in H3. cbn [fst] in H3. now rewrite H3, H2, H1.
      + injection Hc as <- _. now rewrite H2, H1.
    - injection Hc as <- _. now rewrite H1. }
  rewrite scrape_run. unfold tryAwait.
  rewrite <- check_stages, Hc, onError_run.
  unfold answered. cbn [fst res unhandled].
  destruct (res s); [split; reflexivity|discriminate].
Qed.

(** In [src/unnamed/part_001], where [scrape] does not await [check], a
    failure thrown by [check] runs no handler: the state [check] left is
    the final one, but for the rejection recorded as unhandled. *)
Lemma unawaited_check_failure w req s s' e :
  Part001.check w req s = (s', Throw e) ->
  Part001.scrape w req s
  = ({| trace := trace s'; res := res s'; fetchCount := fetchCount s';
        rootContext := rootContext s';
        unhandled := unhandled s' ++ [e] |}, Ok tt).
Proof. intros H. unfold Part001.scrape, tryNoAwait. now rewrite H. Qed.

(** C7.  A request without series identifier, with no [SERIES_ID] in the
    environment: the [scrape] of [src/index.ts] answers 500 with the
    generic body, while the [scrape] of [src/unnamed/part_001] leaves the
    response object as the host created it (nothing sent) and the rejection
    unhandled, because [check] is called without [await] inside the
    [try]. *)
Theorem missing_seriesId_at_both_handlers
    (site : nat -> string -> FetchResult) (parse : string -> CheerioAPI)
    (serialise : Feed -> Result string)
    (logger : LogEntry -> LogData -> option Error) (dev : bool)
    (hdrs : option Headers) (r : Response) :
  let w := {| net := site; load := parse; rss2 := serialise;
              logWrite := logger;
              SERIES_ID := None; isDevelopment := dev |} in
  let req := Some {| query := Some {| seriesId := None |};
                     headers := hdrs |} in
  res (Index.run w req (Some r))
  = Some {| statusCode := 500; sent := Some serverError |} /\
  Part001.run w req (Some r)
  = {| trace := []; res := Some r; fetchCount := 0; rootContext := None;
       unhandled := [ErrorMsg "No series id specified"] |}.
Proof.
  cbv zeta. split; [|reflexivity].
  rewrite scrape_run. unfold tryAwait, Index.staged, Index.firstPage.
  cbn [querySeriesId query seriesId nullish truthy SERIES_ID negb].
  cbv [bind throw]. rewrite onError_run. reflexivity.
Qed.

(** ** The handlers on the canned upstream *)

Example canonical_link_missing_one_page :
  res (Index.run (Fixture.world (HttpResponse 200 "noLink") NetworkError)
         (Fixture.request "42") (Some freshResponse))
  = Some {| statusCode := 200;
            sent := Some ("https://www.nicovideo.jp/watch/sm2," ++
                          "https://www.nicovideo.jp/watch/sm1") |}.
Proof. reflexivity. Qed.

Example unparsable_page_answers_500 :
  res (Index.run (Fixture.world (HttpResponse 200 "<html></html>") NetworkError)
         (Fixture.request "42") (Some freshResponse))
  = Some {| statusCode := 500; sent := Some serverError |}.
Proof. reflexivity. Qed.

Example null_response_object :
  res (Index.run (Fixture.world (HttpResponse 200 "three") NetworkError)
         (Fixture.request "42") None)
  = None.
Proof. reflexivity. Qed.

Example part_001_missing_seriesId :
  Part001.run (Fixture.world NetworkError NetworkError)
    Fixture.noSeriesRequest (Some freshResponse)
  = {| trace := []; res := Some freshResponse; fetchCount := 0;
       rootContext := None;
       unhandled := [ErrorMsg "No series id specified"] |}.
Proof. reflexivity. Qed.

Example part_001_network_error :
  let s := Part001.run (Fixture.world NetworkError NetworkError)
             (Fixture.request "42") (Some freshResponse) in
  res s = Some freshResponse /\
  unhandled s = [FetchError "https://www.nicovideo.jp/series/42"].
Proof. split; reflexivity. Qed.

(** * More of the handlers *)

(** ** Every way a request of [src/index.ts] ends *)

Lemma tailEvents_fetchCount w sid canon cnt d ctx has (pre : list Event) :
  List.length (fetchedUrls (pre ++ tailEvents w sid canon cnt d ctx has))
  = List.length (fetchedUrls pre).
Proof.
  now rewrite fetchedUrls_app, tailEvents_no_fetch, app_nil_r.
Qed.

Lemma failed_run w req r s e :
  Index.staged w req (Index.startState req r) = (s, Throw e) ->
  Index.run w req r
  = answered s [errorEvent w e]
      (logRejection w (fst (errorRecord e)) (snd (errorRecord e)))
      serverErrorAnswer.
Proof.
  intros H. rewrite scrape_run. unfold tryAwait. now rewrite H, onError_run.
Qed.

Ltac close_failed w :=
  unfold ended, answered, errorEvent, logEvent, logRejection;
  cbn [fst snd trace res fetchCount rootContext unhandled app afterFirst
         errorRecord];
  destruct (isDevelopment w); reflexivity.

Ltac failed_by w req r tac :=
  let H := fresh "H" in
  eassert (H : Index.staged w req (Index.startState req r) = _);
  [tac; reflexivity|rewrite (failed_run _ _ _ _ _ H); close_failed w].

Lemma run_ending w req has :
  exists evs rej a,
    Ending w req has evs rej a /\
    forall r, present r = has -> Index.run w req r = ended req r evs rej a.
Proof.
  destruct (truthy (requestedSeries w req)) eqn:Ht.
  2:{ eexists _, _, _. split; [eapply EndNoSeries; [exact Ht|reflexivity]|].
      intros r _.
      failed_by w req r ltac:(unfold Index.staged, Index.firstPage;
                        fold (requestedSeries w req); rewrite Ht). }
  assert (Hr : Resolves w req (requestedSeries w req)) by (split; auto).
  destruct (net w 0 (firstUrl w req)) as [|st b] eqn:Hn.
  { eexists _, _, _. split; [eapply EndFirstFetch; eauto|].
    intros r _.
    failed_by w req r ltac:(unfold Index.staged; cbv [bind];
                      rewrite (firstPage_rejects _ _ r _ Hr Hn)). }
  destruct (dataOf (load w b)) as [d|] eqn:Hd.
  2:{ destruct (nvapi0BodyData_unparsable _ Hd) as [msg Hm].
      eexists _, _, _. split; [eapply (EndFirstParse _ _ _ st b); eauto|].
      intros r _.
      failed_by w req r ltac:(unfold Index.staged, Index.firstPage;
                        fold (requestedSeries w req); rewrite Ht;
                        cbn [negb]; unfold Index.startState; run_monad;
                        rewrite seriesUrl_hasScheme; fold (firstUrl w req);
                        rewrite Hn; run_monad; rewrite Hm). }
  assert (H1 : Serves w 0 (seriesUrl (requestedSeries w req))
                 (extractCanonicalUrl (load w b)) d).
  { split; [reflexivity|]. exists st, b. auto. }
  destruct (Z.ltb_spec 100 (totalCount d)) as [Hlt|Hle].
  2:{ eexists _, _, _. split; [eapply (EndOnePage _ _ _ st b d); eassumption|].
      intros r <-. rewrite (run_first _ _ r _ _ _ Hr H1),
        (tail_after _ _ _ _ _ _ _ _ (lastPage_small _ _ _ _ Hle)).
      unfold ended, answered.
      cbn [afterFirst trace res fetchCount rootContext unhandled app].
      fold (firstUrl w req).
      change (EvSpanStart "fetch" (headerTraceparent req)
              :: EvFetch (firstUrl w req) :: EvSpanEnd "fetch"
              :: EvSpanStart "parse" (headerTraceparent req)
              :: EvSpanEnd "parse" :: ?t)
        with (firstEvents (headerTraceparent req) (firstUrl w req) ++ t)%list.
      rewrite tailEvents_fetchCount. reflexivity. }
  destruct (hasScheme (lastUrl w b d)) eqn:Ha.
  2:{ eexists _, _, _. split.
      { eapply (EndLastFetch _ _ _ st b d); try eassumption. left. eauto. }
      intros r _.
      assert (Hb : (100 <? totalCount d) = true) by now apply Z.ltb_lt.
      failed_by w req r ltac:(unfold Index.staged; cbv [bind];
                        rewrite (firstPage_serves _ _ r _ _ _ Hr H1);
                        unfold Index.lastPage; rewrite Hb;
                        run_monad; fold (lastUrl w b d); rewrite Ha). }
  destruct (net w 1 (lastUrl w b d)) as [|st2 b2] eqn:Hn2.
  { eexists _, _, _. split.
    { eapply (EndLastFetch _ _ _ st b d); try eassumption. right. eauto. }
    intros r _.
    assert (Hb : (100 <? totalCount d) = true) by now apply Z.ltb_lt.
    failed_by w req r ltac:(unfold Index.staged; cbv [bind];
                      rewrite (firstPage_serves _ _ r _ _ _ Hr H1);
                      unfold Index.lastPage; rewrite Hb;
                      run_monad; fold (lastUrl w b d);
                      cbn [afterFirst fetchCount]; rewrite Ha, Hn2). }
  destruct (dataOf (load w b2)) as [d2|] eqn:Hd2.
  2:{ destruct (nvapi0BodyData_unparsable _ Hd2) as [msg Hm].
      eexists _, _, _. split.
      { eapply (EndLastParse _ _ _ st b d st2 b2); eauto. }
      intros r _.
      assert (Hb : (100 <? totalCount d) = true) by now apply Z.ltb_lt.
      failed_by w req r ltac:(unfold Index.staged; cbv [bind];
                        rewrite (firstPage_serves _ _ r _ _ _ Hr H1);
                        unfold Index.lastPage; rewrite Hb;
                        run_monad; fold (lastUrl w b d);
                        cbn [afterFirst fetchCount]; rewrite Ha, Hn2;
                        run_monad; rewrite Hm). }
  eexists _, _, _. split.
  { eapply (EndLastPage _ _ _ st b d st2 b2 d2); eassumption. }
  intros r <-. rewrite (run_first _ _ r _ _ _ Hr H1).
  assert (H2 : Serves w (fetchCount (afterFirst req r (requestedSeries w req)))
                 (pageUrl (extractCanonicalUrl (load w b))
                    (lastPageNo (totalCount d)))
                 (extractCanonicalUrl (load w b2)) d2).
  { split; [exact Ha|]. exists st2, b2. auto. }
  rewrite (tail_after _ _ _ _ _ _ _ _ (lastPage_serves _ _ _ _ _ _ Hlt H2)).
  unfold ended, answered, afterLast.
  cbn [afterFirst trace res fetchCount rootContext unhandled app].
  fold (firstUrl w req). fold (lastUrl w b d).
  change (EvSpanStart "fetch" (headerTraceparent req)
          :: EvFetch (firstUrl w req) :: EvSpanEnd "fetch"
          :: EvSpanStart "parse" (headerTraceparent req)
          :: EvSpanEnd "parse"
          :: EvSpanStart "reFetch" (headerTraceparent req)
          :: EvFetch (lastUrl w b d) :: EvSpanEnd "reFetch"
          :: EvSpanStart "reParse" (headerTraceparent req)
          :: EvSpanEnd "reParse" :: ?t)
    with ((firstEvents (headerTraceparent req) (firstUrl w req)
           ++ lastEvents (headerTraceparent req) (lastUrl w b d)) ++ t)%list.
  rewrite app_assoc, tailEvents_fetchCount. reflexivity.
Qed.

Ltac by_ending w req r :=
  let evs := fresh "evs" in
  let rej := fresh "rej" in
  let a := fresh "a" in
  let HE := fresh "HE" in
  let Hrun := fresh "Hrun" in
  destruct (run_ending w req (present r)) as (evs & rej & a & HE & Hrun);
  rewrite ?(Hrun r eq_refl); unfold ended;
  cbn [trace res fetchCount rootContext unhandled present] in *;
  destruct HE.

Ltac open_events w :=
  unfold tailEvents, tailRejections, respondEvents, respondError,
    respondRejections, respondAnswer, sendEvents, sendError, errorEvent,
    logEvent, logRejection, firstEvents, lastEvents, serverErrorAnswer in *;
  destruct (isDevelopment w).

Lemma entriesOf_bounds (d : Data) :
  (List.length (Index.entriesOf d) =? 0)%nat = false ->
  (1 <= List.length (Index.entriesOf d) <= 20)%nat.
Proof.
  intros H. apply Nat.eqb_neq in H. rewrite entriesOf_length in *. lia.
Qed.

Lemma buildFeed_options (sid : option string) (t : string)
    (l : list Index.Entry) :
  options (Index.buildFeed sid t l) = Index.feedOptions sid t.
Proof.
  unfold Index.buildFeed.
  enough (G : forall f,
             options (fold_left
                        (fun feed entry => addItem feed (Index.feedItem entry))
                        l f)
             = options f) by (rewrite G; reflexivity).
  induction l as [|e l IH]; intros f; cbn [fold_left]; [reflexivity|].
  now rewrite IH.
Qed.

Lemma respondAnswer_cases w sid canon cnt d ctx :
  respondAnswer w sid d = serverErrorAnswer \/
  respondAnswer w sid d
  = {| statusCode := 404; sent := Some "No entries found" |} \/
  exists f xml,
    rss2 w f = Ok xml /\
    respondAnswer w sid d = {| statusCode := 200; sent := Some xml |} /\
    In (EvRss2 f) (tailEvents w sid canon cnt d ctx true) /\
    (1 <= List.length (feed_items f) <= 20)%nat /\
    fo_link (options f) = seriesUrl sid /\
    fo_title (options f) = fo_description (options f).
Proof.
  unfold respondAnswer, tailEvents, respondEvents, respondError, sendEvents,
    sendError.
  destruct (List.length (Index.entriesOf d) =? 0)%nat eqn:E;
    [right; left; reflexivity|].
  destruct (rss2 w (feedOf sid d)) as [xml|e] eqn:R; [|left; reflexivity].
  right. right. exists (feedOf sid d), xml.
  split; [exact R|]. split; [reflexivity|]. split; [|split; [|split]].
  - apply in_or_app. left. right. apply in_or_app. right.
    apply in_or_app. right. now left.
  - unfold feedOf. rewrite buildFeed_items, length_map.
    now apply entriesOf_bounds.
  - unfold feedOf. now rewrite buildFeed_options.
  - unfold feedOf. now rewrite buildFeed_options.
Qed.

(** X1. Whatever the site, the parser and the serialiser give, a request
    that comes with a response object is answered, and in one of three
    ways: 500 with the generic body; 404 with "No entries found"; or 200
    with what the serialiser returned for a feed of 1 to 20 items, whose
    link is the series address built from the request's series identifier
    and whose title and description are the same string. *)
Theorem request_is_answered_200_404_or_500 (w : World)
    (req : option Request) (r0 : Response) :
  let s := Index.run w req (Some r0) in
  res s = Some serverErrorAnswer \/
  res s = Some {| statusCode := 404; sent := Some "No entries found" |} \/
  exists f xml,
    rss2 w f = Ok xml /\
    res s = Some {| statusCode := 200; sent := Some xml |} /\
    In (EvRss2 f) (trace s) /\
    (1 <= List.length (feed_items f) <= 20)%nat /\
    fo_link (options f) = firstUrl w req /\
    fo_title (options f) = fo_description (options f).
Proof.
  cbv zeta. by_ending w req (Some r0); try (left; reflexivity).
  - destruct (respondAnswer_cases w (requestedSeries w req)
                (extractCanonicalUrl (load w b)) (totalCount d) d
                (headerTraceparent req))
      as [->|[->|(f & xml & R & -> & Hin & Hf)]];
      [left; reflexivity|right; left; reflexivity|].
    right. right. exists f, xml. split; [exact R|].
    split; [reflexivity|]. split; [|exact Hf].
    apply in_or_app. now right.
  - destruct (respondAnswer_cases w (requestedSeries w req)
                (extractCanonicalUrl (load w b)) (totalCount d) d2
                (headerTraceparent req))
      as [->|[->|(f & xml & R & -> & Hin & Hf)]];
      [left; reflexivity|right; left; reflexivity|].
    right. right. exists f, xml. split; [exact R|].
    split; [reflexivity|]. split; [|exact Hf].
    apply in_or_app. right. apply in_or_app. now right.
Qed.

Lemma lastPageNo_at_least_2 (n : Z) : 100 < n -> 2 <= lastPageNo n.
Proof. intros H. pose proof (lastPageNo_bounds n). lia. Qed.

(** X6. A request makes at most two fetches, and [fetchCount] counts them.
    It makes none when no series identifier is resolved; otherwise the
    first goes to the series address of the identifier, and a second one,
    if any, asks for a page numbered 2 or more. *)
Theorem at_most_two_fetches (w : World) (req : option Request)
    (r : option Response) :
  let s := Index.run w req r in
  fetchCount s = List.length (fetchedUrls (trace s)) /\
  match fetchedUrls (trace s) with
  | [] => truthy (requestedSeries w req) = false
  | [u] =>
      truthy (requestedSeries w req) = true /\
      u = "https://www.nicovideo.jp/series/" ++ interp (requestedSeries w req)
  | [u; u'] =>
      truthy (requestedSeries w req) = true /\
      u = "https://www.nicovideo.jp/series/" ++ interp (requestedSeries w req) /\
      exists canon n, u' = interp canon ++ "?page=" ++ show n /\ 2 <= n
  | _ => False
  end.
Proof.
  cbv zeta. by_ending w req r; (split; [reflexivity|]);
    try match goal with
        | H : 100 < totalCount ?d |- _ =>
            pose proof (lastPageNo_at_least_2 _ H)
        end;
    rewrite ?fetchedUrls_app, ?tailEvents_no_fetch;
    unfold errorEvent, logEvent; destruct (isDevelopment w); cbn; auto;
    (split; [assumption|]); (split; [reflexivity|]);
    eexists _, _; (split; [reflexivity|assumption]).
Qed.

(** X7. When a long series is refetched, the record "Count N for T" of the
    request pairs the [totalCount] of the first page with the title of the
    last page: [seriesCount] is read before the refetch and is not read
    again, the title after it. *)
Theorem count_record_mixes_both_pages w req r sid canon d1 dfin :
  Reaches w req sid canon d1 dfin ->
  In (logEvent w
        {| severity := "INFO"; labels := [("logType", "feedCount")] |}
        (Text ("Count " ++ show (totalCount d1) ++ " for "
               ++ detail_title (detail dfin))))
     (trace (Index.run w req r)).
Proof.
  intros HR. rewrite (run_reaches _ _ r _ _ _ _ HR).
  unfold answered. cbn [trace]. apply in_or_app. right.
  unfold tailEvents, respondEvents. apply in_or_app. left. now left.
Qed.

Lemma count_record_mixes_both_pages_witness :
  In (EvLogWrite
        {| severity := "INFO"; labels := [("logType", "feedCount")] |}
        (Text "Count 250 for U"))
     (trace (Index.run
               (Pages.world (HttpResponse 200 "big") (HttpResponse 200 "lastU"))
               (Fixture.request "42") (Some freshResponse))).
Proof.
  refine (count_record_mixes_both_pages
    (Pages.world (HttpResponse 200 "big") (HttpResponse 200 "lastU"))
    (Fixture.request "42") (Some freshResponse) (Some "42")
    (Some Fixture.canonical)
    (Fixture.mkData "S" 250 [Fixture.v1])
    (Fixture.mkData "U" 7 [Fixture.v2]) _).
  split; [split; reflexivity|]. split.
  - split; [reflexivity|]. exists 200, "big". repeat split; reflexivity.
  - exists None. split; [reflexivity|].
    exists 200, "lastU". repeat split; reflexivity.
Defined.

(** X8. The page number of the refetch: it is at least 2 whenever a
    refetch happens ([100 < n]) and at most 1 whenever none does, so the
    page skipped at [n <= 100] is the one already fetched; it grows with
    [n]; an exact multiple [100 * k] gives page [k], and one video more
    gives page [k + 1]. *)
Theorem lastPageNo_arithmetic (n m k : Z) :
  (100 < n -> 2 <= lastPageNo n) /\
  (n <= 100 -> lastPageNo n <= 1) /\
  (n <= m -> lastPageNo n <= lastPageNo m) /\
  lastPageNo (100 * k) = k /\
  lastPageNo (100 * k + 1) = k + 1.
Proof.
  pose proof (lastPageNo_bounds n). pose proof (lastPageNo_bounds m).
  pose proof (lastPageNo_bounds (100 * k)).
  pose proof (lastPageNo_bounds (100 * k + 1)).
  repeat split; intros; lia.
Qed.

Lemma lastPageNo_arithmetic_witness :
  2 <= lastPageNo 101 /\ lastPageNo 100 <= 1 /\
  lastPageNo 101 <= lastPageNo 1000.
Proof.
  pose proof (lastPageNo_arithmetic 101 1000 1) as (H1 & _ & H3 & _).
  pose proof (lastPageNo_arithmetic 100 100 1) as (_ & H2 & _).
  split; [apply H1; lia|]. split; [apply H2; lia|apply H3; lia].
Defined.

(** ** Pages that cannot be read *)

Lemma dataOf_None (doc : CheerioAPI) :
  dataOf doc = None <->
  (initial_data_attr doc = None \/
   exists i, initial_data_attr doc = Some i /\ nvapi i = []).
Proof.
  unfold dataOf, extractInitialAPIData.
  destruct (initial_data_attr doc) as [i|].
  - destruct (nvapi i) as [|e l] eqn:E; split.
    + intros _. right. now exists i.
    + reflexivity.
    + discriminate.
    + intros [H|(i' & H & H')]; [discriminate|].
      injection H as <-. congruence.
  - split; [now left|reflexivity].
Qed.

(** X14. A page that answers without the embedded state (the
    [initial-data] attribute is missing, or its [nvapi] list is empty) is
    fatal wherever it comes: the request is answered 500, no further fetch
    is made, no feed is serialised, and the span of the parse stage that
    failed stays open. *)
Theorem unparsable_page_is_fatal w req r0 sid :
  Resolves w req sid ->
  let s := Index.run w req (Some r0) in
  (forall st b,
     net w 0 (seriesUrl sid) = HttpResponse st b ->
     initial_data_attr (load w b) = None \/
     (exists i, initial_data_attr (load w b) = Some i /\ nvapi i = []) ->
     res s = Some serverErrorAnswer /\
     fetchedUrls (trace s) = [seriesUrl sid] /\
     openSpans (trace s) = ["parse"] /\
     serialised (trace s) = []) /\
  (forall canon d st2 b2,
     Serves w 0 (seriesUrl sid) canon d ->
     100 < totalCount d ->
     hasScheme (pageUrl canon (lastPageNo (totalCount d))) = true ->
     net w 1 (pageUrl canon (lastPageNo (totalCount d)))
     = HttpResponse st2 b2 ->
     initial_data_attr (load w b2) = None \/
     (exists i, initial_data_attr (load w b2) = Some i /\ nvapi i = []) ->
     res s = Some serverErrorAnswer /\
     fetchedUrls (trace s)
     = [seriesUrl sid; pageUrl canon (lastPageNo (totalCount d))] /\
     openSpans (trace s) = ["reParse"] /\
     serialised (trace s) = []).
Proof.
  intros [Hs Ht]. cbv zeta. split.
  - intros st b Hn Hd. apply dataOf_None in Hd.
    by_ending w req (Some r0); unfold firstUrl, lastUrl, requestedSeries in *;
      rewrite ?Hs in *; try congruence.
    open_events w; cbn; repeat split.
  - intros canon d st2 b2 (_ & st & b & Hn & Hc & Hd) Hlt Ha Hn2 Hd2.
    apply dataOf_None in Hd2.
    by_ending w req (Some r0); unfold firstUrl, lastUrl, requestedSeries in *;
      rewrite ?Hs in *; try congruence.
    all: assert (b0 = b) by congruence; subst b0.
    all: assert (d0 = d) by congruence; subst d0.
    all: rewrite ?Hc in *; try lia; try congruence.
    all: try match goal with
             | H : _ \/ _ |- _ =>
                 destruct H as [[? _]|(_ & ? & _)]; congruence
             end.
    all: open_events w; cbn; repeat split.
Qed.

Lemma unparsable_page_is_fatal_witness :
  openSpans
    (trace (Index.run
              (Fixture.world (HttpResponse 200 "<html></html>") NetworkError)
              (Fixture.request "42") (Some freshResponse)))
  = ["parse"].
Proof.
  refine (proj1 (proj2 (proj2
    (proj1 (unparsable_page_is_fatal
              (Fixture.world (HttpResponse 200 "<html></html>") NetworkError)
              (Fixture.request "42") freshResponse (Some "42") _)
       200 "<html></html>" _ _)))).
  - split; reflexivity.
  - reflexivity.
  - left. reflexivity.
Defined.

(** ** Case analysis on a whole run *)

(** Case analysis on the scrutinees of a run, the innermost first. *)
Ltac crunch :=
  repeat (cbn [trace res fetchCount rootContext unhandled fst snd app negb
                 initState List.length Nat.eqb filter isErrorRecord severity
                 String.eqb Ascii.eqb Bool.eqb
                 net load rss2 logWrite SERIES_ID isDevelopment]
          || match goal with
             | |- context [match ?x with _ => _ end] =>
                 lazymatch x with
                 | context [match _ with _ => _ end] => fail
                 | _ => destruct x eqn:?
                 end
             end).

Ltac unfold_index :=
  unfold Index.run, Index.scrape, tryAwait, Index.check, Index.startState;
  unfold writeLog, nvapi0BodyData, fetchText, fetch, startSpan, spanEnd;
  cbv [bind ret throw emit statusSend setRootContext setStatus sendBody
       callRss2 whenResponse reject].

(** X9. The error record.  [check] itself writes no ERROR record.  When
    [check] throws, the run is what [check] did, followed by one ERROR
    record that holds the very error thrown, and the answer is 500; when
    [check] returns, nothing is added and the answer is not 500. *)
Theorem server_error_comes_with_one_error_record (w : World)
    (req : option Request) (r0 : Response) :
  let c := Index.check w req (Index.startState req (Some r0)) in
  let s := Index.run w req (Some r0) in
  filter isErrorRecord (trace (fst c)) = [] /\
  match snd c with
  | Throw e =>
      trace s = (trace (fst c) ++ [errorEvent w e])%list /\
      isErrorRecord (errorEvent w e) = true /\
      res s = Some serverErrorAnswer
  | Ok _ =>
      s = fst c /\ res s <> Some serverErrorAnswer
  end.
Proof.
  cbv zeta. unfold errorEvent, logEvent, errorRecord, serverErrorAnswer.
  unfold_index. crunch.
  all: cbn; repeat split; try discriminate.
Qed.

Lemma server_error_comes_with_one_error_record_witness :
  trace (Index.run (Fixture.world NetworkError NetworkError)
           (Fixture.request "42") (Some freshResponse))
  = [EvSpanStart "fetch" None;
     EvFetch "https://www.nicovideo.jp/series/42";
     EvLogWrite {| severity := "ERROR"; labels := [] |}
       (Content (FetchError "https://www.nicovideo.jp/series/42"))] /\
  res (Index.run (Pages.brokenSerialiser (HttpResponse 200 "three") NetworkError)
         (Fixture.request "42") (Some freshResponse))
  = Some serverErrorAnswer.
Proof.
  pose proof (server_error_comes_with_one_error_record
                (Fixture.world NetworkError NetworkError)
                (Fixture.request "42") freshResponse) as H.
  pose proof (server_error_comes_with_one_error_record
                (Pages.brokenSerialiser (HttpResponse 200 "three") NetworkError)
                (Fixture.request "42") freshResponse) as H'.
  vm_compute in H, H'. vm_compute.
  exact (conj (proj1 (proj2 H)) (proj2 (proj2 (proj2 H')))).
Defined.

Ltac leaf :=
  cbn; repeat split; intros; try reflexivity; try discriminate;
  repeat match goal with
         | H : Some _ = Some _ |- _ => injection H as H; subst
         end;
  cbn in *; try reflexivity; try discriminate; try congruence; try lia.

(** X3. A call without response object, as the start-up call
    [scrape(null, null)] of a development run: nothing is answered; the
    fetches, the feed constructed and the spans left open are those of
    the same request with a response object; in production the feed is
    not serialised at all, since [res?.status(200)?.send(feed.rss2())]
    stops at the null [res] before its argument is evaluated, and in
    development it is serialised at most once, for the console.  What a
    request does and answers does not depend on which response object it
    comes with. *)
Theorem null_response_object_skips_the_answer (w : World)
    (req : option Request) (r0 r1 : Response) :
  let sN := Index.run w req None in
  let sR := Index.run w req (Some r0) in
  res sN = None /\
  fetchedUrls (trace sN) = fetchedUrls (trace sR) /\
  constructed (trace sN) = constructed (trace sR) /\
  openSpans (trace sN) = openSpans (trace sR) /\
  (isDevelopment w = false -> serialised (trace sN) = []) /\
  (List.length (serialised (trace sN)) <= 1)%nat /\
  trace (Index.run w req (Some r1)) = trace sR /\
  res (Index.run w req (Some r1)) = res sR.
Proof.
  cbv zeta. unfold_index. crunch.
  all: leaf.
Qed.

Lemma null_response_object_skips_the_answer_witness :
  serialised
    (trace (Index.run (Fixture.world (HttpResponse 200 "three") NetworkError)
              (Fixture.request "42") None))
  = [] /\
  res (Index.run (Fixture.world (HttpResponse 200 "three") NetworkError)
         (Fixture.request "42") None)
  = None.
Proof.
  pose proof (null_response_object_skips_the_answer
                (Fixture.world (HttpResponse 200 "three") NetworkError)
                (Fixture.request "42") freshResponse freshResponse) as H.
  vm_compute in H. vm_compute.
  exact (conj (proj1 (proj2 (proj2 (proj2 (proj2 H)))) eq_refl) (proj1 H)).
Defined.


(** X4. One sink per environment: in development every record and the
    echo of the feed go to the console and nothing to Cloud Logging, in
    production the reverse.  A request answered 200 has constructed one
    feed and serialised it once in production and twice in development
    (once more for [console.log]); a request answered 404 has constructed
    and serialised none. *)
Theorem one_log_sink_and_serialisation_count (w : World)
    (req : option Request) (r0 : Response) :
  let s := Index.run w req (Some r0) in
  (isDevelopment w = true -> logWrites (trace s) = []) /\
  (isDevelopment w = false -> consoleOutput (trace s) = []) /\
  (forall a, res s = Some a -> statusCode a = 200 ->
     List.length (constructed (trace s)) = 1%nat /\
     List.length (serialised (trace s))
     = if isDevelopment w then 2%nat else 1%nat) /\
  (forall a, res s = Some a -> statusCode a = 404 ->
     constructed (trace s) = [] /\ serialised (trace s) = []).
Proof.
  cbv zeta. by_ending w req (Some r0); open_events w.
  all: repeat match goal with
              | H : _ \/ _ |- _ => destruct H
              | H : _ /\ _ |- _ => destruct H
              end; subst.
  all: cbn [fst snd errorRecord countRecord noEntriesRecord successRecord].
  all: repeat match goal with
              | |- context [match ?x with _ => _ end] =>
                  lazymatch x with
                  | context [match _ with _ => _ end] => fail
                  | _ => destruct x eqn:?
                  end
              end.
  all: leaf.
Qed.

Lemma run_quiet (w : World) (req : option Request) (r : option Response) :
  let s := Index.run w req r in
  trace s = trace (Index.run (quiet w) req r) /\
  res s = res (Index.run (quiet w) req r) /\
  Forall (fun e => exists m d,
            In (EvLogWrite m d) (trace s) /\ logWrite w m d = Some e)
    (unhandled s) /\
  (isDevelopment w = true -> unhandled s = []) /\
  ((forall m d, logWrite w m d = None) -> unhandled s = []).
Proof.
  cbv zeta. unfold quiet. unfold_index. crunch.
  all: cbn; repeat split; try reflexivity; try discriminate.
  all: try (intros H;
            repeat match goal with
                   | E : logWrite _ _ _ = Some _ |- _ =>
                       rewrite H in E; discriminate E
                   end).
  all: repeat (constructor;
               [eexists _, _; (split; [|eassumption]); cbn; tauto|]).
  all: try constructor.
Qed.

(** X16. [writeLog] does not await [log.write(entry)]: a rejection of
    that promise is handled by no one, it neither reaches the [catch] of
    [scrape] nor changes what the request does or answers.  The run under
    any other logging backend [lw] has the same trace and the same
    answer; every rejection left unhandled is that of a record the
    request handed to Cloud Logging; there is none in development, and
    none when the backend accepts every record. *)
Theorem log_write_rejection_is_left_unhandled (w : World)
    (lw : LogEntry -> LogData -> option Error)
    (req : option Request) (r : option Response) :
  let w' := {| net := net w; load := load w; rss2 := rss2 w;
               logWrite := lw; SERIES_ID := SERIES_ID w;
               isDevelopment := isDevelopment w |} in
  let s := Index.run w req r in
  trace (Index.run w' req r) = trace s /\
  res (Index.run w' req r) = res s /\
  Forall (fun e => exists m d,
            In (EvLogWrite m d) (trace s) /\ logWrite w m d = Some e)
    (unhandled s) /\
  (isDevelopment w = true -> unhandled s = []) /\
  ((forall m d, logWrite w m d = None) -> unhandled s = []).
Proof.
  intros w' s.
  destruct (run_quiet w req r) as (Ht & Hr & HF & Hd & Hn).
  destruct (run_quiet w' req r) as (Ht' & Hr' & _).
  change (quiet w') with (quiet w) in Ht', Hr'.
  fold s in Ht, Hr, HF, Hd, Hn.
  repeat split; try assumption; congruence.
Qed.

Lemma log_write_rejection_is_left_unhandled_witness :
  res (Index.run
         {| net := Fixture.site (HttpResponse 200 "three") NetworkError;
            load := Fixture.loadPage;
            rss2 := fun f => Ok (Fixture.rssLinks f);
            logWrite := fun _ _ => Some (ErrorMsg "quota exceeded");
            SERIES_ID := None; isDevelopment := false |}
         (Fixture.request "42") (Some freshResponse))
  = res (Index.run (Fixture.world (HttpResponse 200 "three") NetworkError)
           (Fixture.request "42") (Some freshResponse)) /\
  unhandled
    (Index.run (Fixture.world (HttpResponse 200 "three") NetworkError)
       (Fixture.request "42") (Some freshResponse))
  = [].
Proof.
  pose proof (log_write_rejection_is_left_unhandled
                (Fixture.world (HttpResponse 200 "three") NetworkError)
                (fun _ _ => Some (ErrorMsg "quota exceeded"))
                (Fixture.request "42") (Some freshResponse)) as H.
  cbv zeta in H.
  split.
  - exact (proj1 (proj2 H)).
  - exact (proj2 (proj2 (proj2 (proj2 H))) (fun _ _ => eq_refl)).
Defined.

Ltac split_cases :=
  repeat match goal with
         | H : _ \/ _ |- _ => destruct H
         | H : _ /\ _ |- _ => destruct H
         end;
  subst;
  cbn [fst snd errorRecord countRecord noEntriesRecord successRecord] in *;
  repeat match goal with
         | |- context [match ?x with _ => _ end] =>
             lazymatch x with
             | context [match _ with _ => _ end] => fail
             | _ => destruct x eqn:?
             end
         end.

(** X2. Tracing spans.  A request whose answer is not 500 has ended every
    span it started.  [span.end()] comes after the awaited call, so a
    fetch that rejects leaves the span of its stage open for good:
    [fetch] for the first page, [reFetch] for the last page, whether the
    network failed or the address was refused.  A serialiser that throws
    does so after the last span was ended: the request is answered 500
    with every span closed, and the last effect is the ERROR record with
    the serialiser's error. *)
Theorem failed_stage_leaves_its_span_open (w : World)
    (req : option Request) (r0 : Response) :
  let s := Index.run w req (Some r0) in
  (forall a, res s = Some a -> statusCode a <> 500 ->
     openSpans (trace s) = []) /\
  (truthy (requestedSeries w req) = true ->
   net w 0 (firstUrl w req) = NetworkError ->
   res s = Some serverErrorAnswer /\ openSpans (trace s) = ["fetch"]) /\
  (forall st b d,
     truthy (requestedSeries w req) = true ->
     net w 0 (firstUrl w req) = HttpResponse st b ->
     dataOf (load w b) = Some d ->
     100 < totalCount d ->
     hasScheme (lastUrl w b d) = false \/
     net w 1 (lastUrl w b d) = NetworkError ->
     res s = Some serverErrorAnswer /\ openSpans (trace s) = ["reFetch"]) /\
  (forall f e,
     In (EvRss2 f) (trace s) ->
     rss2 w f = Throw e ->
     res s = Some serverErrorAnswer /\
     openSpans (trace s) = [] /\
     last (trace s) (EvRss2 f) = errorEvent w e).
Proof.
  cbv zeta. split; [|split; [|split]].
  - intros a Ha Hne. revert Ha.
    by_ending w req (Some r0); open_events w; split_cases.
    all: intros Ha; injection Ha as <-; cbn in *; congruence.
  - intros Ht Hn.
    by_ending w req (Some r0); try congruence.
    open_events w; split; reflexivity.
  - intros st b d Ht Hn Hd Hlt Hf.
    by_ending w req (Some r0); try congruence.
    all: assert (b0 = b) by congruence; subst b0.
    all: assert (d0 = d) by congruence; subst d0.
    all: try lia.
    all: try (destruct Hf; congruence).
    open_events w; split; reflexivity.
  - intros f e Hin Hr. revert Hin.
    by_ending w req (Some r0); open_events w; split_cases.
    all: cbn [app In]; intros Hin.
    all: repeat destruct Hin as [Hin|Hin]; try discriminate Hin;
      try contradiction.
    all: injection Hin as <-; try congruence.
    all: match goal with
         | H : rss2 _ _ = Throw ?a |- _ =>
             first [constr_eq a e | assert (a = e) by congruence; subst a]
         end.
    all: repeat split; reflexivity.
Qed.

Lemma failed_stage_leaves_its_span_open_witness :
  res (Index.run
         (Pages.brokenSerialiser (HttpResponse 200 "three") NetworkError)
         (Fixture.request "42") (Some freshResponse))
  = Some serverErrorAnswer /\
  openSpans
    (trace (Index.run
              (Pages.brokenSerialiser (HttpResponse 200 "three") NetworkError)
              (Fixture.request "42") (Some freshResponse)))
  = [] /\
  openSpans
    (trace (Index.run
              (Fixture.world (HttpResponse 200 "big") NetworkError)
              (Fixture.request "42") (Some freshResponse)))
  = ["reFetch"].
Proof.
  pose proof (proj2 (proj2 (proj2
    (failed_stage_leaves_its_span_open
       (Pages.brokenSerialiser (HttpResponse 200 "three") NetworkError)
       (Fixture.request "42") freshResponse)))
    (feedOf (Some "42")
       (Fixture.mkData "S" 3 [Fixture.v1; Fixture.v2; Fixture.v3]))
    Pages.invalidUrl) as H.
  pose proof (proj1 (proj2 (proj2
    (failed_stage_leaves_its_span_open
       (Fixture.world (HttpResponse 200 "big") NetworkError)
       (Fixture.request "42") freshResponse)))
    200 "big" (Fixture.mkData "S" 250 [Fixture.v1])) as H'.
  split; [|split].
  - apply H; [vm_compute; tauto | reflexivity].
  - apply H; [vm_compute; tauto | reflexivity].
  - apply H'; [reflexivity | reflexivity | reflexivity | reflexivity |].
    right. reflexivity.
Defined.

(** ** The handler of [src/unnamed/part_001] *)

Ltac unfold_part_001 :=
  unfold Part001.run, Part001.scrape, tryNoAwait, Part001.check;
  unfold writeLog, Part001.extractJsonLD, nvapi0BodyData, fetchText, fetch;
  cbv [bind ret throw emit statusSend setStatus sendBody callRss2
       whenResponse reject].

Lemma part_001_buildFeed sid t l :
  Part001.buildFeed sid t l
  = {| options := Index.feedOptions sid t;
       feed_items := map Part001.feedItem l |}.
Proof.
  unfold Part001.buildFeed.
  enough (G : forall f,
             fold_left (fun feed entry => addItem feed (Part001.feedItem entry)) l f
             = {| options := options f;
                  feed_items := feed_items f ++ map Part001.feedItem l |})
    by (rewrite G; reflexivity).
  induction l as [|e l IH]; intros f; cbn [fold_left map].
  - rewrite app_nil_r. now destruct f.
  - rewrite IH. cbn [addItem options feed_items]. now rewrite <- app_assoc.
Qed.

(** X10. In [src/unnamed/part_001] the [catch] clause of [scrape] never
    runs: no request writes an ERROR record, and none is answered by that
    clause.  When [check] throws [e], the run is what [check] did and
    nothing more: [e] is left as an unhandled rejection, after those of
    the log writes, and the response object is as it came, or, when it
    was the serialiser that threw in production, with the status 200
    already set and nothing sent.  When [check] returns, the request was
    answered 404 or 200 with what the serialiser returned. *)
Theorem part_001_catch_clause_is_dead (w : World) (req : option Request)
    (r0 : Response) :
  let c := Part001.check w req (initState (Some r0)) in
  let s := Part001.run w req (Some r0) in
  filter isErrorRecord (trace s) = [] /\
  trace s = trace (fst c) /\
  res s = res (fst c) /\
  match snd c with
  | Throw e =>
      unhandled s = (unhandled (fst c) ++ [e])%list /\
      (res s = Some r0 \/
       exists f, rss2 w f = Throw e /\ isDevelopment w = false /\
                 res s = Some {| statusCode := 200; sent := sent r0 |})
  | Ok _ =>
      unhandled s = unhandled (fst c) /\
      (res s = Some {| statusCode := 404; sent := Some "No entries found" |} \/
       exists f xml,
         rss2 w f = Ok xml /\
         res s = Some {| statusCode := 200; sent := Some xml |})
  end.
Proof.
  cbv zeta. unfold_part_001. crunch.
  all: cbn [trace res fetchCount rootContext unhandled fst snd app filter
            isErrorRecord severity String.eqb Ascii.eqb Bool.eqb].
  all: repeat (split; [reflexivity|]).
  all: try (left; reflexivity).
  all: right; repeat eexists; eassumption.
Qed.

Lemma part_001_catch_clause_is_dead_witness :
  unhandled
    (Part001.run (Pages.brokenSerialiser (HttpResponse 200 "ld") NetworkError)
       (Fixture.request "42") (Some freshResponse))
  = [Pages.invalidUrl] /\
  filter isErrorRecord
    (trace (Part001.run
              (Pages.brokenSerialiser (HttpResponse 200 "ld") NetworkError)
              (Fixture.request "42") (Some freshResponse)))
  = [].
Proof.
  pose proof (part_001_catch_clause_is_dead
                (Pages.brokenSerialiser (HttpResponse 200 "ld") NetworkError)
                (Fixture.request "42") freshResponse) as H.
  vm_compute in H. vm_compute.
  exact (conj (proj1 (proj2 (proj2 (proj2 H)))) (proj1 H)).
Defined.

Lemma newest_20_empty {A B} (f : A -> B) (l : list A) :
  (List.length (map f (slice0 20 (rev l))) =? 0)%nat
  = (List.length l =? 0)%nat.
Proof.
  unfold slice0. rewrite length_map, length_firstn, length_rev.
  destruct l; [reflexivity|]. cbn [List.length]. reflexivity.
Qed.

Lemma part_001_feed (sid : option string) (t : string) (l : list ListElement) :
  Part001.buildFeed sid t (map Part001.extractEntry (slice0 20 (rev l)))
  = {| options := Index.feedOptions sid t;
       feed_items := map itemOfElement (firstn 20 (rev l)) |}.
Proof.
  rewrite part_001_buildFeed, map_map. reflexivity.
Qed.

Ltac step_run :=
  cbn [trace res fetchCount rootContext unhandled fst snd app initState].

Ltac finish_json_ld w :=
  rewrite newest_20_empty;
  destruct (isDevelopment w);
  match goal with
  | |- context [(List.length ?l =? 0)%nat] =>
      destruct (List.length l =? 0)%nat
  end;
  step_run;
  try match goal with
      | |- context [rss2 w ?f] => destruct (rss2 w f) eqn:?
      end;
  repeat (step_run;
          match goal with
          | |- context [match logWrite w ?m ?d with _ => _ end] =>
              destruct (logWrite w m d)
          end);
  step_run;
  first [reflexivity
        | split; [reflexivity|];
          match goal with
          | |- exists pre, ?l = _ => exists (removelast l)
          end; reflexivity].

(** X11. When [src/unnamed/part_001] gets as far as building entries, they
    come from the JSON-LD list of the page fetched last, not from the items
    of the embedded state, which only gives [totalCount] and the title.
    The answer is 404 when that list is empty.  Otherwise the feed holds
    its elements reversed and cut to the first 20, each item with the
    element's address as id, link, content and also as description, and
    the time of the request as date; the answer is 200 with what the
    serialiser returns for that feed, and when the serialiser throws
    nothing is sent: the error is left as an unhandled rejection, and the
    response object keeps what it came with, in production under the
    status 200 set before the serialiser ran. *)
Theorem part_001_feed_from_json_ld w req r0 sid canon d1 j1 dfin jfin :
  Resolves w req sid ->
  ServesLD w 0 (seriesUrl sid) canon d1 j1 ->
  FinalLD w canon d1 j1 dfin jfin ->
  let elements := firstn 20 (rev (itemListElement jfin)) in
  let feed := {| options := Index.feedOptions sid (detail_title (detail dfin));
                 feed_items := map itemOfElement elements |} in
  let s := Part001.run w req (Some r0) in
  if (List.length (itemListElement jfin) =? 0)%nat then
    res s = Some {| statusCode := 404; sent := Some "No entries found" |}
  else
    match rss2 w feed with
    | Ok xml => res s = Some {| statusCode := 200; sent := Some xml |}
    | Throw e =>
        res s = Some (if isDevelopment w then r0
                      else {| statusCode := 200; sent := sent r0 |}) /\
        exists pre, unhandled s = (pre ++ [e])%list
    end.
Proof.
  intros [Hs Ht] (_ & st & b & Hn & Hc & Hd & Hj) HF. cbv zeta.
  unfold Part001.run, Part001.scrape, tryNoAwait, Part001.check.
  rewrite Hs, Ht. cbn [negb].
  unfold FinalLD, ServesLD, dataOf in *.
  unfold writeLog, Part001.extractJsonLD, nvapi0BodyData, fetchText, fetch.
  cbv [bind ret throw emit statusSend setStatus sendBody callRss2
       whenResponse reject].
  step_run. rewrite seriesUrl_hasScheme, Hn. step_run.
  rewrite Hj.
  destruct (extractInitialAPIData (load w b)) as [i|]; [|discriminate].
  destruct (nvapi i) as [|e l]; [discriminate|]. injection Hd as Hd.
  rewrite Hd, Hc.
  destruct (100 <? totalCount d1).
  - destruct HF as (c & Ha & st2 & b2 & Hn2 & _ & Hd2 & Hj2).
    step_run. rewrite Ha, Hn2. step_run.
    destruct (extractInitialAPIData (load w b2)) as [i2|]; [|discriminate].
    destruct (nvapi i2) as [|e2 l2]; [discriminate|]. injection Hd2 as Hd2.
    rewrite Hj2, Hd2. step_run.
    rewrite part_001_feed.
    finish_json_ld w.
  - destruct HF as [-> ->]. step_run.
    rewrite part_001_feed.
    finish_json_ld w.
Qed.

Lemma part_001_feed_from_json_ld_witness :
  res (Part001.run
         (Pages.world (HttpResponse 200 "ldBig") (HttpResponse 200 "ldLast"))
         (Fixture.request "42") (Some freshResponse))
  = Some {| statusCode := 200;
            sent := Some ("https://www.nicovideo.jp/watch/sm9," ++
                          "https://www.nicovideo.jp/watch/sm8," ++
                          "https://www.nicovideo.jp/watch/sm7") |} /\
  res (Part001.run
         (Pages.brokenSerialiser (HttpResponse 200 "ldBig")
            (HttpResponse 200 "ldLast"))
         (Fixture.request "42") (Some freshResponse))
  = Some {| statusCode := 200; sent := None |}.
Proof.
  split.
  - refine (part_001_feed_from_json_ld
       (Pages.world (HttpResponse 200 "ldBig") (HttpResponse 200 "ldLast"))
       (Fixture.request "42") freshResponse (Some "42")
       (Some Fixture.canonical)
       (Fixture.mkData "S" 250 [Fixture.v1])
       {| itemListElement := [Pages.element "1"] |}
       (Fixture.mkData "L" 250 [Fixture.v3])
       {| itemListElement :=
            [Pages.element "7"; Pages.element "8"; Pages.element "9"] |}
       _ _ _).
    + split; reflexivity.
    + split; [reflexivity|]. exists 200, "ldBig". repeat split; reflexivity.
    + exists (Some Fixture.canonical). split; [reflexivity|].
      exists 200, "ldLast". repeat split; reflexivity.
  - refine (proj1 (part_001_feed_from_json_ld
       (Pages.brokenSerialiser (HttpResponse 200 "ldBig")
          (HttpResponse 200 "ldLast"))
       (Fixture.request "42") freshResponse (Some "42")
       (Some Fixture.canonical)
       (Fixture.mkData "S" 250 [Fixture.v1])
       {| itemListElement := [Pages.element "1"] |}
       (Fixture.mkData "L" 250 [Fixture.v3])
       {| itemListElement :=
            [Pages.element "7"; Pages.element "8"; Pages.element "9"] |}
       _ _ _)).
    + split; reflexivity.
    + split; [reflexivity|]. exists 200, "ldBig". repeat split; reflexivity.
    + exists (Some Fixture.canonical). split; [reflexivity|].
      exists 200, "ldLast". repeat split; reflexivity.
Defined.

(** ** The handler of [src/unnamed/part_000] *)

Ltac unfold_part_000 :=
  unfold Part000.run, Part000.scrape, tryAwait, Part000.check;
  unfold writeLog, Part000.extractJsonLD, nvapi0BodyData, fetchText, fetch,
    startSpan, spanEnd;
  cbv [bind ret throw emit statusSend setRootContext setStatus sendBody
       callRss2 whenResponse reject].

Lemma part_000_buildFeed sid t l :
  Part000.buildFeed sid t l
  = {| options := Index.feedOptions sid t;
       feed_items := map Part000.feedItem l |}.
Proof.
  unfold Part000.buildFeed.
  enough (G : forall f,
             fold_left (fun feed entry => addItem feed (Part000.feedItem entry)) l f
             = {| options := options f;
                  feed_items := feed_items f ++ map Part000.feedItem l |})
    by (rewrite G; reflexivity).
  induction l as [|e l IH]; intros f; cbn [fold_left map].
  - rewrite app_nil_r. now destruct f.
  - rewrite IH. cbn [addItem options feed_items]. now rewrite <- app_assoc.
Qed.

Lemma part_000_feed (sid : option string) (t : string)
    (l : list Part000.ListElement) :
  Part000.buildFeed sid t (map Part000.extractEntry (slice0 20 (rev l)))
  = {| options := Index.feedOptions sid t;
       feed_items := map itemOfElement000 (firstn 20 (rev l)) |}.
Proof.
  rewrite part_000_buildFeed, map_map. reflexivity.
Qed.

Lemma part_000_entries_bounds (j : Part000.JsonLD) :
  (List.length (Part000.entriesOf j) =? 0)%nat = false ->
  (1 <= List.length (Part000.entriesOf j) <= 20)%nat.
Proof.
  intros H. apply Nat.eqb_neq in H. revert H.
  unfold Part000.entriesOf, slice0.
  rewrite length_map, length_firstn. lia.
Qed.

(** X12. [src/unnamed/part_000] awaits [check]: whatever the site, the
    parser, the JSON-LD and the serialiser give, a request that comes
    with a response object is answered 500 with the generic body, 404
    with "No entries found", or 200 with what the serialiser returned for
    a feed of 1 to 20 items. *)
Theorem part_000_request_is_answered (w : World)
    (ld : string -> Result Part000.JsonLD)
    (req : option Request) (r0 : Response) :
  let s := Part000.run w ld req (Some r0) in
  res s = Some serverErrorAnswer \/
  res s = Some {| statusCode := 404; sent := Some "No entries found" |} \/
  exists f xml,
    rss2 w f = Ok xml /\
    res s = Some {| statusCode := 200; sent := Some xml |} /\
    (1 <= List.length (feed_items f) <= 20)%nat.
Proof.
  cbv zeta. unfold_part_000. crunch.
  all: try (left; reflexivity).
  all: try (right; left; reflexivity).
  all: right; right; eexists _, _; (split; [eassumption|]);
    (split; [reflexivity|]);
    rewrite part_000_buildFeed; cbn [feed_items]; rewrite length_map;
    apply part_000_entries_bounds; assumption.
Qed.

(** X13. When [src/unnamed/part_000] gets as far as building entries, they
    come from the JSON-LD list of the page fetched last.  The answer is
    404 when that list is empty.  Otherwise the feed holds its elements
    reversed and cut to the first 20, each item with the element's
    address as id, link and content, its name as title, its own
    description, its first thumbnail as image and its upload date as
    date; the answer is 200 with what the serialiser returns for that
    feed, and 500 when the serialiser throws, the ERROR record holding
    its error. *)
Theorem part_000_feed_from_json_ld w ld req r0 sid canon d1 j1 dfin jfin :
  Resolves w req sid ->
  ServesLD000 w ld 0 (seriesUrl sid) canon d1 j1 ->
  FinalLD000 w ld canon d1 j1 dfin jfin ->
  let elements := firstn 20 (rev (Part000.itemListElement jfin)) in
  let feed := {| options := Index.feedOptions sid (detail_title (detail dfin));
                 feed_items := map itemOfElement000 elements |} in
  let s := Part000.run w ld req (Some r0) in
  if (List.length (Part000.itemListElement jfin) =? 0)%nat then
    res s = Some {| statusCode := 404; sent := Some "No entries found" |}
  else
    match rss2 w feed with
    | Ok xml => res s = Some {| statusCode := 200; sent := Some xml |}
    | Throw e =>
        res s = Some serverErrorAnswer /\
        exists pre, trace s = (pre ++ [errorEvent w e])%list
    end.
Proof.
  intros [Hs Ht] (_ & st & b & Hn & Hc & Hd & Hj) HF. cbv zeta.
  unfold Part000.run, Part000.scrape, tryAwait, Part000.check.
  rewrite Hs, Ht. cbn [negb].
  unfold FinalLD000, ServesLD000, dataOf in *.
  unfold errorEvent, logEvent, errorRecord.
  unfold writeLog, Part000.extractJsonLD, nvapi0BodyData, fetchText, fetch,
    startSpan, spanEnd.
  cbv [bind ret throw emit statusSend setRootContext setStatus sendBody
       callRss2 whenResponse reject].
  step_run. rewrite seriesUrl_hasScheme, Hn. step_run.
  rewrite Hj.
  destruct (extractInitialAPIData (load w b)) as [i|]; [|discriminate].
  destruct (nvapi i) as [|e l]; [discriminate|]. injection Hd as Hd.
  rewrite Hd, Hc. step_run.
  unfold Part000.entriesOf.
  destruct (100 <? totalCount d1).
  - destruct HF as (c & Ha & st2 & b2 & Hn2 & _ & Hd2 & Hj2).
    step_run. rewrite Ha, Hn2. step_run.
    destruct (extractInitialAPIData (load w b2)) as [i2|]; [|discriminate].
    destruct (nvapi i2) as [|e2 l2]; [discriminate|]. injection Hd2 as Hd2.
    rewrite Hj2, Hd2. step_run.
    rewrite part_000_feed.
    finish_json_ld w.
  - destruct HF as [-> ->]. step_run.
    rewrite part_000_feed.
    finish_json_ld w.
Qed.

Lemma part_000_feed_from_json_ld_witness :
  res (Part000.run
         (Pages.world (HttpResponse 200 "ldBig") (HttpResponse 200 "ldLast"))
         Pages.jsonLD000
         (Fixture.request "42") (Some freshResponse))
  = Some {| statusCode := 200;
            sent := Some ("https://www.nicovideo.jp/watch/sm9," ++
                          "https://www.nicovideo.jp/watch/sm8," ++
                          "https://www.nicovideo.jp/watch/sm7") |} /\
  res (Part000.run
         (Pages.brokenSerialiser (HttpResponse 200 "ldBig")
            (HttpResponse 200 "ldLast"))
         Pages.jsonLD000
         (Fixture.request "42") (Some freshResponse))
  = Some serverErrorAnswer.
Proof.
  split.
  - refine (part_000_feed_from_json_ld
       (Pages.world (HttpResponse 200 "ldBig") (HttpResponse 200 "ldLast"))
       Pages.jsonLD000
       (Fixture.request "42") freshResponse (Some "42")
       (Some Fixture.canonical)
       (Fixture.mkData "S" 250 [Fixture.v1])
       {| Part000.itemListElement := [Pages.element000 "1"] |}
       (Fixture.mkData "L" 250 [Fixture.v3])
       {| Part000.itemListElement :=
            [Pages.element000 "7"; Pages.element000 "8";
             Pages.element000 "9"] |}
       _ _ _).
    + split; reflexivity.
    + split; [reflexivity|]. exists 200, "ldBig". repeat split; reflexivity.
    + exists (Some Fixture.canonical). split; [reflexivity|].
      exists 200, "ldLast". repeat split; reflexivity.
  - refine (proj1 (part_000_feed_from_json_ld
       (Pages.brokenSerialiser (HttpResponse 200 "ldBig")
          (HttpResponse 200 "ldLast"))
       Pages.jsonLD000
       (Fixture.request "42") freshResponse (Some "42")
       (Some Fixture.canonical)
       (Fixture.mkData "S" 250 [Fixture.v1])
       {| Part000.itemListElement := [Pages.element000 "1"] |}
       (Fixture.mkData "L" 250 [Fixture.v3])
       {| Part000.itemListElement :=
            [Pages.element000 "7"; Pages.element000 "8";
             Pages.element000 "9"] |}
       _ _ _)).
    + split; reflexivity.
    + split; [reflexivity|]. exists 200, "ldBig". repeat split; reflexivity.
    + exists (Some Fixture.canonical). split; [reflexivity|].
      exists 200, "ldLast". repeat split; reflexivity.
Defined.

(** X15. The JSON-LD handlers read the JSON-LD script of the first page
    before anything else of it: whatever [extractJsonLD] throws there (a
    TypeError when the page has no script, a SyntaxError when the last
    script is not JSON) ends the request after that one fetch.
    [src/unnamed/part_000] answers 500 and writes the error to the ERROR
    record, with the [parse] span left open; [src/unnamed/part_001]
    answers nothing: the error is its one unhandled rejection, and the
    response object is untouched. *)
Theorem json_ld_error_is_fatal w ld req r0 sid st b e :
  Resolves w req sid ->
  net w 0 (seriesUrl sid) = HttpResponse st b ->
  (ld b = Throw e ->
   let s := Part000.run w ld req (Some r0) in
   res s = Some serverErrorAnswer /\
   fetchedUrls (trace s) = [seriesUrl sid] /\
   openSpans (trace s) = ["parse"] /\
   filter isErrorRecord (trace s) = [errorEvent w e]) /\
  (last_script_json (load w b) = Throw e ->
   let s := Part001.run w req (Some r0) in
   res s = Some r0 /\
   fetchedUrls (trace s) = [seriesUrl sid] /\
   unhandled s = [e]).
Proof.
  intros [Hs Ht] Hn. split; intros Hj; cbv zeta.
  - unfold Part000.run, Part000.scrape, tryAwait, Part000.check.
    rewrite Hs, Ht. cbn [negb].
    unfold errorEvent, logEvent, errorRecord, serverErrorAnswer.
    unfold writeLog, Part000.extractJsonLD, nvapi0BodyData, fetchText, fetch,
      startSpan, spanEnd.
    cbv [bind ret throw emit statusSend setRootContext setStatus sendBody
         callRss2 whenResponse reject].
    step_run. rewrite seriesUrl_hasScheme, Hn. step_run.
    rewrite Hj.
    destruct (isDevelopment w); step_run;
      [|destruct (logWrite w _ _); step_run];
      repeat split; reflexivity.
  - unfold Part001.run, Part001.scrape, tryNoAwait, Part001.check.
    rewrite Hs, Ht. cbn [negb].
    unfold writeLog, Part001.extractJsonLD, nvapi0BodyData, fetchText, fetch.
    cbv [bind ret throw emit statusSend setStatus sendBody callRss2
         whenResponse reject].
    step_run. rewrite seriesUrl_hasScheme, Hn. step_run.
    rewrite Hj. step_run. repeat split; reflexivity.
Qed.

Lemma json_ld_error_is_fatal_witness :
  res (Part000.run
         (Pages.world (HttpResponse 200 "notJson") NetworkError)
         Pages.jsonLD000 (Fixture.request "42") (Some freshResponse))
  = Some serverErrorAnswer /\
  unhandled (Part001.run
               (Pages.world (HttpResponse 200 "notJson") NetworkError)
               (Fixture.request "42") (Some freshResponse))
  = [SyntaxError "Unexpected token < in JSON at position 0"].
Proof.
  pose proof (json_ld_error_is_fatal
    (Pages.world (HttpResponse 200 "notJson") NetworkError)
    Pages.jsonLD000 (Fixture.request "42") freshResponse (Some "42")
    200 "notJson"
    (SyntaxError "Unexpected token < in JSON at position 0")
    (conj eq_refl eq_refl) eq_refl) as [H0 H1].
  split.
  - exact (proj1 (H0 eq_refl)).
  - exact (proj2 (proj2 (H1 eq_refl))).
Defined.
